(** * Enphase Envoy integration: update coordination and realtime streaming

    A shallow embedding of [custom_components/enphase_envoy/__init__.py]:
    the update method handed to the host's coordinator, the initial
    refresh with its single downgraded retry, the throttled publisher of
    realtime meter frames, the reconnect loop around the meter stream and
    the two handlers that stop that loop.

    Python objects that the module mutates (the reader, [coordinator.data],
    the registry of live entities, the entry's slot in [hass.data]) are
    fields of one [world]; every call that leaves the module is recorded
    as an [event] of the world's trace, in program order. *)

From stdpp Require Import gmap strings list fin_maps.
From Stdlib Require Import ZArith.

Open Scope Z_scope.

(** ** Python values *)

(** Scalars as they occur in snapshots, options and stream results.
    Meter readings are numbers; a finite one is held as an exact integer
    (the unit is whatever the device reports), and [VNaN] is the float
    not-a-number, which compares unequal to everything, itself
    included. *)
Inductive value :=
| VNone
| VBool (b : bool)
| VNum (z : Z)
| VStr (s : string)
| VNaN.

#[global] Instance value_eq_dec : EqDecision value.
Proof. solve_decision. Defined.

(** Python's [==] on scalars: a bool is the integer 0 or 1. *)
Definition py_eq (a b : value) : bool :=
  match a, b with
  | VNone, VNone => true
  | VBool x, VBool y => bool_decide (x = y)
  | VBool x, VNum z | VNum z, VBool x => Z.b2z x =? z
  | VNum x, VNum y => x =? y
  | VStr s, VStr t => bool_decide (s = t)
  | _, _ => false
  end.

(** Python's [!=]. *)
Definition py_ne (a b : value) : bool := negb (py_eq a b).

(** Truth value of a scalar in a condition. *)
Definition truthy (v : value) : bool :=
  match v with
  | VNone => false
  | VBool b => b
  | VNum z => negb (z =? 0)
  | VStr s => negb (bool_decide (s = ""%string))
  | VNaN => true
  end.

(** [d.get(key)]: [None] when the key is absent. *)
Definition dict_get (d : gmap string value) (key : string) : value :=
  default VNone (d !! key).

(** [d.get(key, dflt)]. *)
Definition dict_get_default (d : gmap string value) (key : string)
    (dflt : value) : value :=
  default dflt (d !! key).

(** A dict under construction, in insertion order: assigning an existing
    key replaces its value in place, a new key goes to the end. *)
Fixpoint dict_set (d : list (string * value)) (key : string) (v : value)
    : list (string * value) :=
  match d with
  | [] => [(key, v)]
  | (k, x) :: rest =>
      if decide (k = key) then (k, v) :: rest
      else (k, x) :: dict_set rest key v
  end.

(** [d.update({k1: v1, ...})], the entries taken left to right. *)
Definition dict_update (d : list (string * value))
    (entries : list (string * value)) : list (string * value) :=
  foldl (fun acc kv => dict_set acc kv.1 kv.2) d entries.

(** ** Exceptions *)

Inductive exn :=
| HTTPStatusError                 (* httpx.HTTPStatusError *)
| HTTPError (err : string)        (* any other subclass of httpx.HTTPError *)
| TimeoutError                    (* asyncio.TimeoutError, from async_timeout *)
| CancelledError                  (* asyncio.CancelledError *)
| ConfigEntryAuthFailed
| ConfigEntryNotReady
| UpdateFailed (msg : string)
| AttributeError (msg : string)
| OtherError (name : string).

#[global] Instance exn_eq_dec : EqDecision exn.
Proof. solve_decision. Defined.

(** [isinstance(e, httpx.HTTPStatusError)]. *)
Definition is_HTTPStatusError (e : exn) : bool :=
  match e with HTTPStatusError => true | _ => false end.

(** [isinstance(e, httpx.HTTPError)]: the status error is a subclass. *)
Definition is_HTTPError (e : exn) : bool :=
  match e with HTTPStatusError | HTTPError _ => true | _ => false end.

(** [str(err)] as used in the message of [UpdateFailed]. *)
Definition exn_str (e : exn) : string :=
  match e with
  | HTTPError err | UpdateFailed err | AttributeError err | OtherError err => err
  | _ => ""
  end.

(** ** The world the module acts on *)

(** A platform entity that registered itself for live updates. Entities
    are plain objects, hence true in a condition. *)
Definition entity := nat.

(** What the entry's ["realtime_loop"] slot of [hass.data] can hold. *)
Inductive pyobj :=
| ONone            (* None: no task was created *)
| OFalse           (* False: written by the stop paths *)
| OTask.           (* the asyncio task running [read_realtime_updates] *)

(** The asyncio task created by setup. A pending task is suspended in the
    stream read or in the reconnect delay. *)
Inductive task_state :=
| Pending (cancel_requested : bool)
| Finished                          (* the coroutine returned *)
| Cancelled                         (* it unwound with CancelledError *)
| Failed (e : exn).                 (* it raised something else *)

Inductive event :=
| EvSyncStore (load : bool)            (* envoy_reader._sync_store(load=..) *)
| EvGetData (inverters : bool)         (* envoy_reader.getData() *)
| EvGetSerial                          (* envoy_reader.get_full_serial_number() *)
| EvUpdateEntry (serial : string)      (* async_update_entry(entry, unique_id=..) *)
| EvForwardSetups                      (* async_forward_entry_setups *)
| EvSetData (key : string) (v : value) (* coordinator.data[key] = value *)
| EvWriteHaState (key : string) (e : entity) (* live_entities[key].async_write_ha_state() *)
| EvStreamReader                       (* envoy_reader.stream_reader(...) *)
| EvWarning (msg : string)             (* _LOGGER.warning *)
| EvSleep (seconds : Z)                (* asyncio.sleep *)
| EvCreateTask                         (* asyncio.create_task *)
| EvListenStop                         (* bus.async_listen_once(STOP, _async_stop) *)
| EvCancel                             (* task.cancel() *)
| EvAwaitTask                          (* await task *)
| EvUnloadPlatforms.                   (* async_unload_platforms *)

#[global] Instance event_eq_dec : EqDecision event.
Proof. solve_decision. Defined.

Record world := World {
  get_inverters : bool;                     (* envoy_reader.get_inverters *)
  calls : nat;                              (* getData invocations so far *)
  all_values : gmap string value;           (* envoy_reader.all_values *)
  data : option (gmap string value);        (* coordinator.data *)
  live_entities : gmap string entity;       (* LIVE_UPDATEABLE_ENTITIES *)
  unique_id : option string;                (* entry.unique_id *)
  realtime_loop : option (option pyobj);    (* None: hass.data has no dict for
                                               the entry; Some None: the dict
                                               has no "realtime_loop" key *)
  task : option task_state;                 (* state of the created task *)
  trace : list event                        (* oldest first *)
}.

Definition set_get_inverters (b : bool) (w : world) : world :=
  World b (calls w) (all_values w) (data w) (live_entities w) (unique_id w)
        (realtime_loop w) (task w) (trace w).
Definition set_calls (n : nat) (w : world) : world :=
  World (get_inverters w) n (all_values w) (data w) (live_entities w)
        (unique_id w) (realtime_loop w) (task w) (trace w).
Definition set_all_values (v : gmap string value) (w : world) : world :=
  World (get_inverters w) (calls w) v (data w) (live_entities w)
        (unique_id w) (realtime_loop w) (task w) (trace w).
Definition set_data (d : option (gmap string value)) (w : world) : world :=
  World (get_inverters w) (calls w) (all_values w) d (live_entities w)
        (unique_id w) (realtime_loop w) (task w) (trace w).
Definition set_live_entities (l : gmap string entity) (w : world) : world :=
  World (get_inverters w) (calls w) (all_values w) (data w) l
        (unique_id w) (realtime_loop w) (task w) (trace w).
Definition set_unique_id (u : option string) (w : world) : world :=
  World (get_inverters w) (calls w) (all_values w) (data w) (live_entities w)
        u (realtime_loop w) (task w) (trace w).
Definition set_realtime_loop (s : option (option pyobj)) (w : world)
    : world :=
  World (get_inverters w) (calls w) (all_values w) (data w) (live_entities w)
        (unique_id w) s (task w) (trace w).
Definition set_task (t : option task_state) (w : world) : world :=
  World (get_inverters w) (calls w) (all_values w) (data w) (live_entities w)
        (unique_id w) (realtime_loop w) t (trace w).
Definition log (e : event) (w : world) : world :=
  World (get_inverters w) (calls w) (all_values w) (data w) (live_entities w)
        (unique_id w) (realtime_loop w) (task w) (trace w ++ [e]).

(** ** Computations: state, exceptions, and awaits that never resume *)

Inductive outcome (A : Type) :=
| Ret (a : A)
| Raise (e : exn)
| Blocks.            (* the coroutine stays suspended *)
Arguments Ret {A} a.
Arguments Raise {A} e.
Arguments Blocks {A}.

Definition M (A : Type) : Type := world -> outcome A * world.

Definition ret {A} (a : A) : M A := fun w => (Ret a, w).
Definition raise {A} (e : exn) : M A := fun w => (Raise e, w).
Definition blocks {A} : M A := fun w => (Blocks, w).

Definition bind {A B} (c : M A) (k : A -> M B) : M B :=
  fun w =>
    match c w with
    | (Ret a, w') => k a w'
    | (Raise e, w') => (Raise e, w')
    | (Blocks, w') => (Blocks, w')
    end.

(** [try: c  except <handler>]: the handler decides, in the order of the
    [except] clauses, whether it takes the exception ([Some]) or lets it
    pass ([None]). *)
Definition try_except {A} (c : M A) (handler : exn -> option (M A)) : M A :=
  fun w =>
    match c w with
    | (Raise e, w') =>
        match handler e with
        | Some h => h w'
        | None => (Raise e, w')
        end
    | r => r
    end.

Definition emit (e : event) : M unit := fun w => (Ret tt, log e w).
Definition gets {A} (f : world -> A) : M A := fun w => (Ret (f w), w).
Definition modify (f : world -> world) : M unit := fun w => (Ret tt, f w).

(** stdpp's monad notations: [x ← c; k] and [c;; k]. *)
#[global] Instance M_ret : MRet M := @ret.
#[global] Instance M_bind : MBind M := fun A B k c => bind c k.

(** The events a computation adds to the trace. *)
Definition events_of {A} (c : M A) (w : world) : list event :=
  drop (length (trace w)) (trace (c w).2).

Definition result_of {A} (c : M A) (w : world) : outcome A := (c w).1.

(** ** The reader and the host, as far as the module sees them *)

(** How one [getData] call under the timeout ends. The reader is the
    integration's own HTTP client: it fails with httpx errors, it may not
    finish in time, and anything else it raises is not an httpx error. *)
Inductive getData_outcome :=
| Completed (values : gmap string value)  (* returns; all_values holds these *)
| RaisedHTTPStatusError
| RaisedHTTPError (err : string)          (* another httpx.HTTPError *)
| TimedOut                                (* the timeout expires first *)
| RaisedOther (name : string).            (* not an httpx error *)

(** How [get_full_serial_number] ends. *)
Inductive serial_outcome :=
| Serial (s : string)
| SerialHTTPError
| SerialOther (name : string).

(** Modelled from the spec: the reader's [StreamData] frame (the reader
    module is not among the sources). A frame holds one reading per phase
    for production and one for consumption; a reading has the seven
    quantities the publisher reads. *)
Record PhaseData := {
  watts : value;
  amps : value;
  volt_ampere : value;
  pf : value;
  hz : value;
  var : value;
  volt : value
}.

Record StreamData := {
  production : string -> PhaseData;
  consumption : string -> PhaseData
}.

(** The host's [CoreState] and the two things the loop reads from it. *)
Inductive CoreState :=
| not_running | starting | running | stopping | final_write | stopped.

#[global] Instance CoreState_eq_dec : EqDecision CoreState.
Proof. solve_decision. Defined.

Record host_view := {
  state : CoreState;          (* hass.state *)
  is_running : bool           (* hass.is_running *)
}.

(** What an await of the loop is resumed with. *)
Inductive resume (A : Type) :=
| Resumed (a : A)             (* the awaited call returns *)
| Thrown (e : exn)            (* an exception surfaces at the await:
                                 CancelledError when the task is cancelled,
                                 or whatever the awaited call raises *)
| Suspended.                  (* it is never resumed *)
Arguments Resumed {A} a.
Arguments Thrown {A} e.
Arguments Suspended {A}.

(** One pass of the reconnect loop, as the environment decides it. *)
Record round := {
  hass : host_view;           (* read by the loop condition *)
  stream_end : resume value;  (* the result of stream_reader *)
  sleep_end : resume unit     (* the end of the reconnect delay *)
}.

(** The constants the module imports for setup: the keys of
    [entry.data] and the default intervals. *)
Record constants := {
  CONF_HOST : string;
  CONF_NAME : string;
  CONF_PASSWORD : string;
  CONF_USERNAME : string;
  CONF_SERIAL : string;
  DEFAULT_SCAN_INTERVAL : value;
  DEFAULT_REALTIME_UPDATE_THROTTLE : value
}.

(** How [async_forward_entry_setups] ends: the platforms are set up and
    their entities have put themselves into the registry of live
    entities, or the call raises. *)
Inductive forward_outcome :=
| Forwarded (registered : gmap string entity)
| ForwardRaised (name : string).

(** [timedelta(seconds=v)]: the exception it raises, if any. A bool is an
    integer; the day count must stay within 999999999 either way. *)
Definition timedelta_error (v : value) : option exn :=
  match v with
  | VNone | VStr _ => Some (OtherError "TypeError")
  | VNaN => Some (OtherError "ValueError")
  | VBool _ => None
  | VNum z =>
      if (Z.abs (z / 86400) <=? 999999999) then None
      else Some (OtherError "OverflowError")
  end.

(** [timedelta(seconds=v)], for what it can raise. *)
Definition timedelta (v : value) : M unit :=
  match timedelta_error v with
  | Some e => raise e
  | None => ret tt
  end.

(** [d[key]]: a [KeyError] when the key is absent. *)
Definition dict_index (d : gmap string value) (key : string) : M value :=
  match d !! key with
  | Some v => ret v
  | None => raise (OtherError "KeyError")
  end.

(** The event loop gets a turn while the caller is suspended: a pending
    task with a cancel request is resumed with [CancelledError] and,
    [read_realtime_updates] having no handler, ends cancelled. *)
Definition event_loop_turn : M unit :=
  modify (fun w =>
            match task w with
            | Some (Pending true) => set_task (Some Cancelled) w
            | _ => w
            end).

Section Integration.

(** The device behind the reader: what the [n]-th [getData] call does,
    given whether inverter details are requested and which timeout
    applies to the call. *)
Variable device : nat -> bool -> value -> getData_outcome.

(** What the serial-number request returns. *)
Variable serial_device : serial_outcome.

(** The reader's value-adjustment policy for production watts. *)
Variable process_production_value : value -> value.

(** [entry.options]. *)
Variable options : gmap string value.

(** Constants of [const.py]. *)
Variable DEFAULT_GETDATA_TIMEOUT : value.

(** [entry.data]. *)
Variable config : gmap string value.

(** The other constants setup reads. *)
Variable consts : constants.

(** What setting up the platforms does. *)
Variable platform_setup : forward_outcome.

(** *** Reader calls *)

(** [await envoy_reader._sync_store(load=...)]. *)
Definition _sync_store (load : bool) : M unit := emit (EvSyncStore load).

(** [await envoy_reader.getData()] inside
    [async with async_timeout.timeout(seconds)]: when the call does not
    finish in time it is cancelled and the context manager raises
    [asyncio.TimeoutError]. *)
Definition getData (seconds : value) : M unit :=
  fun w =>
    let w1 := set_calls (S (calls w)) (log (EvGetData (get_inverters w)) w) in
    match device (calls w) (get_inverters w) seconds with
    | Completed values => (Ret tt, set_all_values values w1)
    | RaisedHTTPStatusError => (Raise HTTPStatusError, w1)
    | RaisedHTTPError err => (Raise (HTTPError err), w1)
    | TimedOut => (Raise TimeoutError, w1)
    | RaisedOther name => (Raise (OtherError name), w1)
    end.

(** *** [async_update_data] (lines 79-96) *)

Definition async_update_data : M (gmap string value) :=
  let data0 : gmap string value := ∅ in
  data1 ← (try_except
             (getData (dict_get_default options "getdata_timeout"
                         DEFAULT_GETDATA_TIMEOUT))
             (fun err =>
                if is_HTTPStatusError err then
                  Some (raise ConfigEntryAuthFailed)
                else if is_HTTPError err then
                  Some (raise (UpdateFailed
                          ("Error communicating with API: " +:+ exn_str err)))
                else None);;
           (* all_values adjusts production values, based on option key *)
           gets all_values);
  _sync_store false;;
  ret data1.

(** *** The host's coordinator

    [DataUpdateCoordinator] belongs to the host. Its contract, as far as
    this module relies on it: a refresh awaits the update method once; a
    returned snapshot becomes [coordinator.data]; when the update method
    raises, [coordinator.data] is left as it was. *)

(** A scheduled refresh: failures are recorded by the host, not raised. *)
Definition async_refresh : M unit :=
  fun w =>
    match async_update_data w with
    | (Ret snapshot, w') => (Ret tt, set_data (Some snapshot) w')
    | (Raise _, w') => (Ret tt, w')
    | (Blocks, w') => (Blocks, w')
    end.

(** The first refresh: an auth failure is re-raised as it is, any other
    failure becomes [ConfigEntryNotReady]. *)
Definition async_config_entry_first_refresh : M unit :=
  fun w =>
    match async_update_data w with
    | (Ret snapshot, w') => (Ret tt, set_data (Some snapshot) w')
    | (Raise ConfigEntryAuthFailed, w') => (Raise ConfigEntryAuthFailed, w')
    | (Raise _, w') => (Raise ConfigEntryNotReady, w')
    | (Blocks, w') => (Blocks, w')
    end.

(** *** The initial refresh of [async_setup_entry] (lines 108-112) *)

Definition initial_refresh : M unit :=
  try_except async_config_entry_first_refresh
    (fun err =>
       match err with
       | ConfigEntryAuthFailed =>
           Some (modify (set_get_inverters false);;
                 async_config_entry_first_refresh)
       | _ => None
       end).

(** *** The throttled publisher (lines 140-166) *)

(** [for x in xs: body(x)]. *)
Fixpoint for_each {A} (xs : list A) (body : A -> M unit) : M unit :=
  match xs with
  | [] => ret tt
  | x :: rest => body x;; for_each rest body
  end.

(** The dict literal passed to [new_data.update] for one phase. *)
Definition phase_entries (streamdata : StreamData) (phase : string)
    : list (string * value) :=
  let production_watts :=
    process_production_value (watts (production streamdata phase)) in
  dict_update []
    [ ("production_" +:+ phase, production_watts);
      ("voltage_" +:+ phase, volt (production streamdata phase));
      ("ampere_" +:+ phase, amps (production streamdata phase));
      ("apparent_power_" +:+ phase, volt_ampere (production streamdata phase));
      ("power_factor" +:+ phase, pf (production streamdata phase));
      ("reactive_power_" +:+ phase, var (production streamdata phase));
      ("frequency_" +:+ phase, hz (production streamdata phase));
      ("consumption_" +:+ phase, watts (consumption streamdata phase)) ].

(** [new_data] after the loop over the phases. *)
Definition new_data_of (streamdata : StreamData) : list (string * value) :=
  foldl (fun new_data phase =>
           dict_update new_data (phase_entries streamdata phase))
        [] ["l1"; "l2"; "l3"]%string.

(** The body of the loop over [new_data.items()]. [and] evaluates
    [coordinator.data.get(key)] only for a key with a live entity. *)
Definition publish_item (item : string * value) : M unit :=
  let '(key, v) := item in
  live ← gets (fun w => live_entities w !! key);
  match live with
  | None => ret tt
  | Some e =>
      d ← gets data;
      match d with
      | None => raise (AttributeError "'NoneType' object has no attribute 'get'")
      | Some d =>
          if py_ne (dict_get d key) v then
            (* Update the value in the coordinator *)
            modify (set_data (Some (<[key := v]> d)));;
            emit (EvSetData key v);;
            (* Let hass know the data is updated *)
            emit (EvWriteHaState key e)
          else ret tt
      end
  end.

(** The decorated function. The host's [Throttle] admits a call or drops
    it; a dropped call returns without running the body. *)
Definition update_production_meters (admitted : bool)
    (streamdata : StreamData) : M unit :=
  if admitted then for_each (new_data_of streamdata) publish_item
  else ret tt.

(** *** The reconnect loop (lines 168-186) *)

(** Resume an await with what the environment delivers there. *)
Definition await_point {A} (r : resume A) : M A :=
  match r with
  | Resumed a => ret a
  | Thrown e => raise e
  | Suspended => blocks
  end.

(** The [while] condition: [A or B and C] is [A or (B and C)]. *)
Definition loop_condition (h : host_view) : bool :=
  bool_decide (state h = not_running)
  || (is_running h
      && truthy (dict_get_default options "enable_realtime_updates"
                   (VBool false))).

(** One [round] of the environment is consumed per evaluation of the
    loop condition. When the rounds run out the run is cut at the loop
    head. *)
Fixpoint read_realtime_updates (env : list round) : M unit :=
  match env with
  | [] => blocks
  | r :: env' =>
      if loop_condition (hass r) then
        emit EvStreamReader;;
        result ← await_point (stream_end r);
        if py_eq result (VBool false) then
          (* If result is False, then we are done reconnecting *)
          emit (EvWarning
                  "Reading /stream/meter failed, stopping realtime updates");;
          ret tt
        else
          emit (EvWarning "Re-connecting /stream/meter");;
          (* throttle reconnect attempts *)
          emit (EvSleep 30);;
          await_point (sleep_end r);;
          read_realtime_updates env'
      else ret tt
  end.

(** *** Tasks *)

(** [task.cancel()] on an existing task: a pending task gets the request,
    a task that is done ignores it. *)
Definition task_cancel : M unit :=
  emit EvCancel;;
  modify (fun w =>
            match task w with
            | Some (Pending _) => set_task (Some (Pending true)) w
            | _ => w
            end).

(** [await task]. A pending task with a cancel request is resumed with
    [CancelledError] at its await; [read_realtime_updates] has no handler,
    so the task ends cancelled and the awaiter sees the same exception. *)
Definition await_task : M unit :=
  emit EvAwaitTask;;
  t ← gets task;
  match t with
  | Some (Pending true) =>
      modify (set_task (Some Cancelled));; raise CancelledError
  | Some (Pending false) => blocks
  | Some Finished => ret tt
  | Some Cancelled => raise CancelledError
  | Some (Failed e) => raise e
  | None => raise (OtherError "TypeError")
  end.

(** [with suppress(asyncio.CancelledError): c]. *)
Definition suppress_CancelledError (c : M unit) : M unit :=
  try_except c
    (fun err => match err with CancelledError => Some (ret tt) | _ => None end).

(** [hass.data[DOMAIN][entry.entry_id]["realtime_loop"] = obj]: a
    [KeyError] when the entry's dict is gone. *)
Definition store_realtime_loop (obj : pyobj) : M unit :=
  slot ← gets realtime_loop;
  match slot with
  | None => raise (OtherError "KeyError")
  | Some _ => modify (set_realtime_loop (Some (Some obj)))
  end.

(** *** [_async_stop] (lines 193-198) *)

Definition _async_stop : M unit :=
  t ← gets task;
  match t with
  | None =>
      raise (AttributeError "'NoneType' object has no attribute 'cancel'")
  | Some _ => task_cancel
  end;;
  store_realtime_loop OFalse.

(** *** [async_setup_entry] (lines 53-207) *)

Definition get_full_serial_number : M string :=
  emit EvGetSerial;;
  match serial_device with
  | Serial s => ret s
  | SerialHTTPError => raise (HTTPError "")
  | SerialOther name => raise (OtherError name)
  end.

(** [hass.config_entries.async_update_entry(entry, unique_id=serial)]. *)
Definition async_update_entry (serial : string) : M unit :=
  emit (EvUpdateEntry serial);;
  modify (set_unique_id (Some serial)).

(** The [try / except httpx.HTTPError: pass / else] block of lines 115-120. *)
Definition fetch_unique_id : M unit :=
  fun w =>
    match get_full_serial_number w with
    | (Ret serial, w') => async_update_entry serial w'
    | (Raise err, w') =>
        if is_HTTPError err then (Ret tt, w') else (Raise err, w')
    | (Blocks, w') => (Blocks, w')
    end.

(** [await hass.config_entries.async_forward_entry_setups(entry, PLATFORMS)]. *)
Definition async_forward_entry_setups : M unit :=
  emit EvForwardSetups;;
  match platform_setup with
  | Forwarded registered =>
      modify (fun w => set_live_entities (registered ∪ live_entities w) w)
  | ForwardRaised name => raise (OtherError name)
  end.

Definition async_setup_entry : M bool :=
  modify (set_task None);;
  _ ← dict_index config (CONF_NAME consts);
  (* EnvoyReader(config[CONF_HOST], ..., inverters=True, ...) *)
  _ ← dict_index config (CONF_HOST consts);
  _ ← dict_index config (CONF_USERNAME consts);
  _ ← dict_index config (CONF_PASSWORD consts);
  _ ← dict_index config (CONF_SERIAL consts);
  modify (set_get_inverters true);;
  _sync_store true;;
  (* update_interval=timedelta(seconds=options.get("time_between_update", ..)) *)
  timedelta (dict_get_default options "time_between_update"
               (DEFAULT_SCAN_INTERVAL consts));;
  initial_refresh;;
  uid ← gets unique_id;
  match uid with
  | Some id => if bool_decide (id = ""%string) then fetch_unique_id else ret tt
  | None => fetch_unique_id
  end;;
  (* hass.data.setdefault(DOMAIN, {})[entry.entry_id] = {...} *)
  modify (set_realtime_loop (Some None));;
  modify (set_live_entities ∅);;
  async_forward_entry_setups;;
  (* time_between_realtime_updates = timedelta(seconds=options.get(..)) *)
  timedelta (dict_get_default options "realtime_update_throttle"
               (DEFAULT_REALTIME_UPDATE_THROTTLE consts));;
  (if truthy (dict_get_default options "enable_realtime_updates" (VBool false))
   then emit EvCreateTask;; modify (set_task (Some (Pending false)))
   else ret tt);;
  emit EvListenStop;;
  t ← gets task;
  store_realtime_loop (match t with Some _ => OTask | None => ONone end);;
  ret true.

End Integration.

(** *** [async_unload_entry] (lines 210-225) *)

(** [await hass.config_entries.async_unload_platforms(entry, PLATFORMS)]:
    the host unloads the platforms in tasks of its own, so the event loop
    runs while the call is awaited. [unload_ok] is what it answers. *)
Definition async_unload_platforms (unload_ok : bool) : M bool :=
  emit EvUnloadPlatforms;;
  event_loop_turn;;
  ret unload_ok.

Definition async_unload_entry (unload_ok : bool) : M bool :=
  slot ← gets realtime_loop;
  match slot with
  | None => raise (OtherError "KeyError")
  | Some (Some OTask) =>
      (* .get("realtime_loop", False) is a task, hence true *)
      suppress_CancelledError (task_cancel;; await_task);;
      store_realtime_loop OFalse
  | Some _ => ret tt
  end;;
  unload_ok ← async_unload_platforms unload_ok;
  (if unload_ok : bool then modify (set_realtime_loop None) else ret tt);;
  ret unload_ok.

(** *** A run of scheduled refreshes *)

(** [n] scheduled refreshes, one after the other. *)
Fixpoint refreshes (device : nat -> bool -> value -> getData_outcome)
    (options : gmap string value) (DEFAULT_GETDATA_TIMEOUT : value)
    (n : nat) : M unit :=
  match n with
  | O => ret tt
  | S n' =>
      async_refresh device options DEFAULT_GETDATA_TIMEOUT;;
      refreshes device options DEFAULT_GETDATA_TIMEOUT n'
  end.

(** The world in which the first refresh of setup starts: reader created
    with [inverters=True], token store loaded. *)
Definition before_first_poll (w : world) : world :=
  log (EvSyncStore true) (set_get_inverters true (set_task None w)).

(** The world right after the reader was called. *)
Definition called (w : world) : world :=
  set_calls (S (calls w)) (log (EvGetData (get_inverters w)) w).

(** The number of reader invocations recorded in a list of events. *)
Definition reader_invocations (es : list event) : nat :=
  length (List.filter
            (fun e => match e with EvGetData _ => true | _ => false end) es).

(** What one item of [new_data] is expected to cause, given the registry
    and the shared state as they are when the frame arrives. *)
Definition item_events (live : gmap string entity) (d : gmap string value)
    (item : string * value) : list event :=
  match live !! item.1 with
  | Some e =>
      if py_ne (dict_get d item.1) item.2
      then [EvSetData item.1 item.2; EvWriteHaState item.1 e]
      else []
  | None => []
  end.

(** The world with more events on its trace. *)
Definition logs (es : list event) (w : world) : world :=
  World (get_inverters w) (calls w) (all_values w) (data w) (live_entities w)
        (unique_id w) (realtime_loop w) (task w) (trace w ++ es).

(** A round in which the stream ends without the final [False] and the
    reconnect delay runs to its end. *)
Definition transient (options : gmap string value) (r : round) : bool :=
  loop_condition options (hass r)
  && match stream_end r with
     | Resumed result => negb (py_eq result (VBool false))
     | _ => false
     end
  && match sleep_end r with Resumed _ => true | _ => false end.

(** What the loop does in a transient round. *)
Definition reconnect_events : list event :=
  [EvStreamReader; EvWarning "Re-connecting /stream/meter"; EvSleep 30].


(** [entry.data] has the five keys setup indexes it with. *)
Definition config_complete (config : gmap string value) (consts : constants)
    : bool :=
  bool_decide (is_Some (config !! CONF_NAME consts))
  && bool_decide (is_Some (config !! CONF_HOST consts))
  && bool_decide (is_Some (config !! CONF_USERNAME consts))
  && bool_decide (is_Some (config !! CONF_PASSWORD consts))
  && bool_decide (is_Some (config !! CONF_SERIAL consts)).

(** [not entry.unique_id]: no id, or an empty one. *)
Definition no_unique_id (w : world) : bool :=
  match unique_id w with
  | Some id => bool_decide (id = ""%string)
  | None => true
  end.

(** What lines 122-207 of setup leave behind when none of them raises,
    from the world [w] they start in and with the entities the platforms
    registered. *)
Definition setup_finish (options : gmap string value)
    (registered : gmap string entity) (w : world) : world :=
  let realtime :=
    truthy (dict_get_default options "enable_realtime_updates" (VBool false))
  in
  let t := if realtime then Some (Pending false) else task w in
  World (get_inverters w) (calls w) (all_values w) (data w) registered
        (unique_id w)
        (Some (Some (match t with Some _ => OTask | None => ONone end)))
        t
        (trace w ++ EvForwardSetups
                 :: (if realtime then [EvCreateTask] else []) ++ [EvListenStop]).

(** The events of the part of setup that comes before the entry gets its
    dict in [hass.data]: token store, reader and config entry only. *)
Definition before_entry_dict (e : event) : bool :=
  match e with
  | EvSyncStore _ | EvGetData _ | EvGetSerial | EvUpdateEntry _ => true
  | _ => false
  end.

(** ** Sample inputs *)

Module Samples.

(** Before setup: nothing polled, nothing registered, no entry dict. *)
Definition world0 : world :=
  World true 0 ∅ None ∅ None None None [].

Definition snapshot1 : gmap string value :=
  {[ "production" := VNum 1200; "consumption" := VNum 800 ]}.

(** Rejects every request that asks for inverter details. *)
Definition device_installer_denied (n : nat) (inverters : bool)
    (seconds : value) : getData_outcome :=
  if inverters then RaisedHTTPStatusError else Completed snapshot1.

(** Rejects every request. *)
Definition device_denied (n : nat) (inverters : bool) (seconds : value)
    : getData_outcome := RaisedHTTPStatusError.

(** Answers every request. *)
Definition device_ok (n : nat) (inverters : bool) (seconds : value)
    : getData_outcome := Completed snapshot1.

(** Unreachable on the second request only. *)
Definition device_flaky (n : nat) (inverters : bool) (seconds : value)
    : getData_outcome :=
  match n with
  | 1%nat => RaisedHTTPError "connection refused"
  | _ => Completed snapshot1
  end.

Definition no_options : gmap string value := ∅.

Definition realtime_options : gmap string value :=
  {[ "enable_realtime_updates" := VBool true ]}.

Definition clamp_negative (v : value) : value :=
  match v with
  | VNum z => if z <? 0 then VNum 0 else VNum z
  | _ => v
  end.

Definition reading (n : Z) : PhaseData :=
  {| watts := VNum n; amps := VNum (n + 1); volt_ampere := VNum (n + 2);
     pf := VNum (n + 3); hz := VNum (n + 4); var := VNum (n + 5);
     volt := VNum (n + 6) |}.

Definition frame1 : StreamData :=
  {| production := fun phase =>
       if decide (phase = "l1"%string) then reading (-10)
       else if decide (phase = "l2"%string) then reading 20
       else reading 30;
     consumption := fun _ => reading 100 |}.

(** After a first poll, with one entity listening to [production_l2]. *)
Definition world_live : world :=
  World true 1 snapshot1 (Some snapshot1) {[ "production_l2" := 7%nat ]}
        (Some "122019000001"%string) (Some (Some ONone)) None [].

Definition host_running : host_view :=
  {| state := running; is_running := true |}.

Definition round_drop : round :=
  {| hass := host_running; stream_end := Resumed VNone;
     sleep_end := Resumed tt |}.

Definition round_final : round :=
  {| hass := host_running; stream_end := Resumed (VBool false);
     sleep_end := Resumed tt |}.

(** A world in which the stream task is running. *)
Definition world_streaming : world :=
  World false 2 snapshot1 (Some snapshot1) ∅ (Some "122019000001"%string)
        (Some (Some OTask)) (Some (Pending false)) [].

(** The host is shutting down. *)
Definition host_stopping : host_view :=
  {| state := stopping; is_running := false |}.

Definition round_stopping : round :=
  {| hass := host_stopping; stream_end := Resumed VNone;
     sleep_end := Resumed tt |}.

(** The stream read fails with an exception of the HTTP client. *)
Definition round_broken : round :=
  {| hass := host_running; stream_end := Thrown (HTTPError "read timeout");
     sleep_end := Resumed tt |}.

(** The stream task has died of an exception. *)
Definition world_task_failed : world :=
  World false 2 snapshot1 (Some snapshot1) ∅ (Some "122019000001"%string)
        (Some (Some OTask)) (Some (Failed (HTTPError "read timeout"))) [].

(** The stream task has returned after the final [False]. *)
Definition world_task_finished : world :=
  World false 2 snapshot1 (Some snapshot1) ∅ (Some "122019000001"%string)
        (Some (Some OTask)) (Some Finished) [].

(** A serial-number request that fails outside the HTTP client. *)
Definition serial_broken : serial_outcome := SerialOther "KeyError".

(** A complete [entry.data], the constants and platforms that register
    two entities. *)
Definition config1 : gmap string value :=
  {[ "host" := VStr "192.168.1.20"; "name" := VStr "Envoy";
     "username" := VStr "owner"; "password" := VStr "secret";
     "serial" := VStr "122019000001" ]}.

Definition consts1 : constants :=
  {| CONF_HOST := "host"; CONF_NAME := "name"; CONF_PASSWORD := "password";
     CONF_USERNAME := "username"; CONF_SERIAL := "serial";
     DEFAULT_SCAN_INTERVAL := VNum 60;
     DEFAULT_REALTIME_UPDATE_THROTTLE := VNum 10 |}.

Definition platforms1 : forward_outcome :=
  Forwarded {[ "production_l1" := 1%nat; "production_l2" := 2%nat ]}.

(** Options with an update interval that is no number. *)
Definition bad_interval_options : gmap string value :=
  {[ "time_between_update" := VStr "abc" ]}.

(** Options with a throttle interval that is no number. *)
Definition bad_throttle_options : gmap string value :=
  {[ "realtime_update_throttle" := VStr "abc";
     "enable_realtime_updates" := VBool true ]}.

(** A frame whose power factor on l1 is not a number. *)
Definition frame_nan : StreamData :=
  {| production := fun phase =>
       if decide (phase = "l1"%string)
       then {| watts := VNum 10; amps := VNum 1; volt_ampere := VNum 10;
               pf := VNaN; hz := VNum 50; var := VNum 0; volt := VNum 230 |}
       else reading 20;
     consumption := fun _ => reading 100 |}.

End Samples.

(** ** Properties *)

(** Projections of an updated world. *)
Ltac simpl_world :=
  unfold called in *;
  unfold log, set_get_inverters, set_calls, set_all_values, set_data,
    set_live_entities, set_unique_id, set_realtime_loop, set_task in *;
  cbn [get_inverters calls all_values data live_entities unique_id
       realtime_loop task trace fst snd] in *.

(** A sequence that returns went through both of its parts. *)
Lemma bind_Ret_inv {A B} (c : M A) (k : A -> M B) (w w' : world) (b : B) :
  (c ≫= k) w = (Ret b, w') ->
  exists a w1, c w = (Ret a, w1) /\ k a w1 = (Ret b, w').
Proof.
  unfold mbind, M_bind, bind.
  destruct (c w) as [[a| |] w1]; [eauto|discriminate..].
Qed.

Lemma events_of_app {A} (c : M A) (w : world) (es : list event) :
  trace (c w).2 = trace w ++ es -> events_of c w = es.
Proof. intros H. unfold events_of. rewrite H. apply drop_app_length. Qed.

Section PollCoordinator.

Variable device : nat -> bool -> value -> getData_outcome.
Variable options : gmap string value.
Variable DEFAULT_GETDATA_TIMEOUT : value.

Abbreviation timeout :=
  (dict_get_default options "getdata_timeout" DEFAULT_GETDATA_TIMEOUT).
Abbreviation update := (async_update_data device options DEFAULT_GETDATA_TIMEOUT).
Abbreviation refresh := (async_refresh device options DEFAULT_GETDATA_TIMEOUT).
Abbreviation first_refresh :=
  (async_config_entry_first_refresh device options DEFAULT_GETDATA_TIMEOUT).

(** One poll attempt, by the way the reader call ends. *)
Lemma async_update_data_cases (w : world) :
  update w =
  match device (calls w) (get_inverters w) timeout with
  | Completed values =>
      (Ret values, log (EvSyncStore false) (set_all_values values (called w)))
  | RaisedHTTPStatusError => (Raise ConfigEntryAuthFailed, called w)
  | RaisedHTTPError err =>
      (Raise (UpdateFailed ("Error communicating with API: " +:+ err)),
       called w)
  | TimedOut => (Raise TimeoutError, called w)
  | RaisedOther name => (Raise (OtherError name), called w)
  end.
Proof.
  unfold async_update_data, mbind, M_bind, bind, try_except, getData, called.
  destruct (device _ _ _); reflexivity.
Qed.

(** The events of one poll attempt. *)
Lemma async_update_data_events (w : world) :
  events_of update w =
  EvGetData (get_inverters w) ::
  match device (calls w) (get_inverters w) timeout with
  | Completed _ => [EvSyncStore false]
  | _ => []
  end.
Proof.
  apply events_of_app. rewrite async_update_data_cases.
  destruct (device _ _ _); cbn; by rewrite <- ?app_assoc.
Qed.

(** C1, as amended: a poll attempt syncs the token store exactly when the
    reader call completes, and then as the last thing it does; when the
    reader call fails (HTTP status error, other HTTP error, timeout or
    anything else) the attempt ends in that exception with no sync. *)
Theorem sync_store_iff_reader_completes (w : world) :
  (EvSyncStore false ∈ events_of update w
   <-> exists values,
        device (calls w) (get_inverters w) timeout = Completed values)
  /\ (forall values,
        result_of update w = Ret values ->
        events_of update w = [EvGetData (get_inverters w); EvSyncStore false])
  /\ (forall e,
        result_of update w = Raise e ->
        events_of update w = [EvGetData (get_inverters w)]).
Proof.
  rewrite async_update_data_events. unfold result_of.
  rewrite async_update_data_cases.
  destruct (device _ _ _) eqn:Hd; cbn; split_and!;
    try (split; [ | intros [v Hv]; discriminate ]);
    try (intros; discriminate); try (intros; reflexivity).
  all: try (split; [ eauto | intros _; set_solver ]).
  all: rewrite !elem_of_cons, elem_of_nil; intros [?|?]; try done.
Qed.

(** C4: the update method raises [ConfigEntryAuthFailed] exactly when the
    reader's [getData] raises an HTTP status error, and [UpdateFailed]
    exactly when it raises another HTTP error (whose text the message
    carries); a timeout, any other exception and a completed call raise
    neither. *)
Theorem reader_failures_classified (w : world) :
  (result_of update w = Raise ConfigEntryAuthFailed
   <-> device (calls w) (get_inverters w) timeout = RaisedHTTPStatusError)
  /\ (forall msg,
        result_of update w = Raise (UpdateFailed msg)
        <-> exists err,
             device (calls w) (get_inverters w) timeout = RaisedHTTPError err
             /\ msg = ("Error communicating with API: " +:+ err)%string).
Proof.
  unfold result_of. rewrite async_update_data_cases.
  destruct (device _ _ _) eqn:Hd; cbn; split; try intros msg; split;
    try discriminate; try reflexivity; try (intros (err & H & _); discriminate).
  - intros [= <-]. eauto.
  - intros (e & [= <-] & ->). reflexivity.
Qed.

Lemma async_refresh_cases (w : world) :
  refresh w =
  match device (calls w) (get_inverters w) timeout with
  | Completed values =>
      (Ret tt,
       set_data (Some values)
         (log (EvSyncStore false) (set_all_values values (called w))))
  | _ => (Ret tt, called w)
  end.
Proof.
  unfold async_refresh. rewrite async_update_data_cases.
  destruct (device _ _ _); reflexivity.
Qed.

Lemma async_refresh_calls (w : world) :
  calls (refresh w).2 = S (calls w)
  /\ get_inverters (refresh w).2 = get_inverters w.
Proof. rewrite async_refresh_cases. destruct (device _ _ _); done. Qed.

(** Over a run of scheduled refreshes the visible snapshot is the one it
    was before the run or the one a completed poll of the run returned. *)
Lemma refreshes_data (n : nat) (w : world) :
  data (refreshes device options DEFAULT_GETDATA_TIMEOUT n w).2 = data w
  \/ exists k values,
      (k < n)%nat
      /\ device (calls w + k)%nat (get_inverters w) timeout = Completed values
      /\ data (refreshes device options DEFAULT_GETDATA_TIMEOUT n w).2
         = Some values.
Proof.
  revert w. induction n as [|n IH]; intros w; [by left|].
  cbn [refreshes]. unfold mbind, M_bind, bind.
  destruct (async_refresh_calls w) as [Hc Hi].
  pose proof (async_refresh_cases w) as Hr.
  destruct (refresh w) as [[[]| |] w1] eqn:Hw1; cbn in Hc, Hi.
  - destruct (IH w1) as [Hsame | (k & values & Hk & Hd & Hv)].
    + rewrite Hsame.
      destruct (device (calls w) (get_inverters w) timeout) eqn:Hd0;
        inversion Hr; subst w1; try (by left).
      right. exists 0%nat, values. rewrite Nat.add_0_r. split_and!; [lia|done..].
    + right. exists (S k), values. rewrite Hc, Hi in Hd.
      replace (calls w + S k)%nat with (S (calls w) + k)%nat by lia.
      split_and!; [lia|done..].
  - destruct (device _ _ _); discriminate.
  - destruct (device _ _ _); discriminate.
Qed.

(** C3: a failing update method raises, returns no data and leaves the
    visible snapshot untouched, and the host keeps it; only a completed
    poll replaces the snapshot, wholesale, by what the reader returned.
    Hence after any run of polls the visible snapshot is the earlier one
    or the result of a completed poll of the run. *)
Theorem snapshot_replaced_only_on_success :
  (forall w,
     data (update w).2 = data w
     /\ match result_of update w with
        | Ret values =>
            device (calls w) (get_inverters w) timeout = Completed values
            /\ data (refresh w).2 = Some values
        | Raise _ =>
            (forall values,
               device (calls w) (get_inverters w) timeout <> Completed values)
            /\ data (refresh w).2 = data w
        | Blocks => False
        end)
  /\ (forall n w,
        data (refreshes device options DEFAULT_GETDATA_TIMEOUT n w).2 = data w
        \/ exists k values,
            (k < n)%nat
            /\ device (calls w + k)%nat (get_inverters w) timeout
               = Completed values
            /\ data (refreshes device options DEFAULT_GETDATA_TIMEOUT n w).2
               = Some values).
Proof.
  split; [|apply refreshes_data].
  intros w. unfold result_of.
  rewrite async_refresh_cases, async_update_data_cases.
  destruct (device _ _ _); cbn; split_and!; done.
Qed.

Lemma first_refresh_cases (w : world) :
  first_refresh w =
  match device (calls w) (get_inverters w) timeout with
  | Completed values =>
      (Ret tt,
       set_data (Some values)
         (log (EvSyncStore false) (set_all_values values (called w))))
  | RaisedHTTPStatusError => (Raise ConfigEntryAuthFailed, called w)
  | _ => (Raise ConfigEntryNotReady, called w)
  end.
Proof.
  unfold async_config_entry_first_refresh. rewrite async_update_data_cases.
  destruct (device _ _ _); reflexivity.
Qed.

Lemma initial_refresh_cases (w : world) :
  initial_refresh device options DEFAULT_GETDATA_TIMEOUT w =
  match device (calls w) (get_inverters w) timeout with
  | RaisedHTTPStatusError => first_refresh (set_get_inverters false (called w))
  | _ => first_refresh w
  end.
Proof.
  unfold initial_refresh, try_except. rewrite first_refresh_cases.
  destruct (device _ _ _); reflexivity.
Qed.

(** C2: when the first refresh of setup fails with an auth failure, the
    reader's [get_inverters] is switched off and the refresh is run once
    more, so the reader is invoked exactly twice; if that second call
    completes, its snapshot is the first visible one, and if it fails
    with an auth failure again, that failure goes to the caller of setup
    with no third call. *)
Theorem initial_refresh_retries_once (w : world) :
  device (calls w) (get_inverters w) timeout = RaisedHTTPStatusError ->
  let second := device (S (calls w)) false timeout in
  let w' := (initial_refresh device options DEFAULT_GETDATA_TIMEOUT w).2 in
  get_inverters w' = false
  /\ calls w' = S (S (calls w))
  /\ reader_invocations
       (events_of (initial_refresh device options DEFAULT_GETDATA_TIMEOUT) w)
     = 2%nat
  /\ take 2 (events_of
               (initial_refresh device options DEFAULT_GETDATA_TIMEOUT) w)
     = [EvGetData (get_inverters w); EvGetData false]
  /\ result_of (initial_refresh device options DEFAULT_GETDATA_TIMEOUT) w
     = match second with
       | Completed _ => Ret tt
       | RaisedHTTPStatusError => Raise ConfigEntryAuthFailed
       | _ => Raise ConfigEntryNotReady
       end
  /\ data w'
     = match second with
       | Completed values => Some values
       | _ => data w
       end.
Proof.
  intros H1 second w'.
  assert (Hev : trace w' = trace w ++
            EvGetData (get_inverters w) :: EvGetData false ::
            match second with Completed _ => [EvSyncStore false] | _ => [] end).
  { subst w' second. rewrite initial_refresh_cases, H1, first_refresh_cases.
    cbn. destruct (device (S (calls w)) false _); cbn;
      by rewrite <- !app_assoc. }
  rewrite (events_of_app _ _ _ Hev).
  subst w' second. unfold result_of.
  rewrite initial_refresh_cases, H1, first_refresh_cases. cbn.
  destruct (device (S (calls w)) false _); cbn; split_and!; reflexivity.
Qed.

End PollCoordinator.

(** Witness of C2: a device that refuses installer-level requests. *)
Lemma initial_refresh_retries_once_witness :
  Samples.device_installer_denied 0 true (VNum 30) = RaisedHTTPStatusError
  /\ result_of (initial_refresh Samples.device_installer_denied
                  Samples.no_options (VNum 30)) Samples.world0 = Ret tt
  /\ calls (initial_refresh Samples.device_installer_denied
              Samples.no_options (VNum 30) Samples.world0).2 = 2%nat
  /\ data (initial_refresh Samples.device_installer_denied
             Samples.no_options (VNum 30) Samples.world0).2
     = Some Samples.snapshot1.
Proof.
  split; [reflexivity|].
  pose proof (initial_refresh_retries_once Samples.device_installer_denied
                Samples.no_options (VNum 30) Samples.world0 eq_refl)
    as (_ & Hc & _ & _ & Hr & Hd).
  split_and!; [exact Hr | exact Hc | exact Hd].
Defined.

(** C1 fails as stated: against a device that rejects the request, the
    poll attempt ends in [ConfigEntryAuthFailed] and the token store is
    not synced. *)
Lemma sync_store_skipped_on_auth_failure :
  result_of (async_update_data Samples.device_denied Samples.no_options
               (VNum 30)) Samples.world0 = Raise ConfigEntryAuthFailed
  /\ ~ (EvSyncStore false
        ∈ events_of (async_update_data Samples.device_denied
                       Samples.no_options (VNum 30)) Samples.world0).
Proof.
  split; [reflexivity|].
  rewrite async_update_data_events. cbn.
  rewrite elem_of_cons, elem_of_nil. intros [?|[]]. discriminate.
Qed.

Lemma string_cons_neq (c : Ascii.ascii) (s : string) : String c s <> s.
Proof.
  revert c. induction s as [|a s IH]; intros c H; [discriminate H|].
  injection H as _ H. by apply IH in H.
Qed.

Section Publisher.

Variable process_production_value : value -> value.

Abbreviation entries := (phase_entries process_production_value).
Abbreviation new_data := (new_data_of process_production_value).
Abbreviation publish := (update_production_meters process_production_value).

(** The eight entries of one phase, whatever the phase is called: the
    eight keys differ within their first two characters, so the dict
    literal keeps all of them. *)
Lemma phase_entries_eq (streamdata : StreamData) (phase : string) :
  entries streamdata phase =
  [ ("production_" +:+ phase,
     process_production_value (watts (production streamdata phase)));
    ("voltage_" +:+ phase, volt (production streamdata phase));
    ("ampere_" +:+ phase, amps (production streamdata phase));
    ("apparent_power_" +:+ phase, volt_ampere (production streamdata phase));
    ("power_factor" +:+ phase, pf (production streamdata phase));
    ("reactive_power_" +:+ phase, var (production streamdata phase));
    ("frequency_" +:+ phase, hz (production streamdata phase));
    ("consumption_" +:+ phase, watts (consumption streamdata phase)) ]%string.
Proof.
  unfold phase_entries, dict_update. cbn [foldl dict_set fst snd].
  repeat (case_decide as Heq; [discriminate Heq|]; cbn [dict_set]).
  reflexivity.
Qed.

(** The three phases give twenty-four distinct keys, phase by phase. *)
Lemma new_data_of_eq (streamdata : StreamData) :
  new_data streamdata =
  entries streamdata "l1" ++ entries streamdata "l2"
  ++ entries streamdata "l3".
Proof. rewrite !phase_entries_eq. vm_compute. reflexivity. Qed.

Lemma new_data_of_keys (streamdata : StreamData) :
  (new_data streamdata).*1 =
  [ "production_l1"; "voltage_l1"; "ampere_l1"; "apparent_power_l1";
    "power_factorl1"; "reactive_power_l1"; "frequency_l1"; "consumption_l1";
    "production_l2"; "voltage_l2"; "ampere_l2"; "apparent_power_l2";
    "power_factorl2"; "reactive_power_l2"; "frequency_l2"; "consumption_l2";
    "production_l3"; "voltage_l3"; "ampere_l3"; "apparent_power_l3";
    "power_factorl3"; "reactive_power_l3"; "frequency_l3"; "consumption_l3"
  ]%string.
Proof. rewrite new_data_of_eq, !phase_entries_eq. reflexivity. Qed.

Lemma new_data_of_NoDup (streamdata : StreamData) :
  NoDup (new_data streamdata).*1.
Proof.
  rewrite new_data_of_keys. apply (bool_decide_unpack _). vm_compute. exact I.
Qed.

(** C9: every frame yields eight entries for each of the phases l1, l2
    and l3, twenty-four in all under distinct keys: production watts,
    volts, amps, apparent power, power factor, reactive power, frequency
    and consumption watts. Only the production watts go through
    [process_production_value]; the other seven values are the frame's
    own, the consumption watts included. *)
Theorem eight_metrics_per_phase (streamdata : StreamData) :
  new_data streamdata
  = flat_map
      (fun phase =>
         [ ("production_" +:+ phase,
            process_production_value (watts (production streamdata phase)));
           ("voltage_" +:+ phase, volt (production streamdata phase));
           ("ampere_" +:+ phase, amps (production streamdata phase));
           ("apparent_power_" +:+ phase,
            volt_ampere (production streamdata phase));
           ("power_factor" +:+ phase, pf (production streamdata phase));
           ("reactive_power_" +:+ phase, var (production streamdata phase));
           ("frequency_" +:+ phase, hz (production streamdata phase));
           ("consumption_" +:+ phase, watts (consumption streamdata phase))
         ]%string)
      ["l1"; "l2"; "l3"]%string
  /\ Forall (fun phase => length (entries streamdata phase) = 8%nat)
       ["l1"; "l2"; "l3"]%string
  /\ length (new_data streamdata) = 24%nat
  /\ NoDup (new_data streamdata).*1.
Proof.
  split_and!.
  - rewrite new_data_of_eq, !phase_entries_eq. reflexivity.
  - repeat constructor; by rewrite phase_entries_eq.
  - rewrite new_data_of_eq, !phase_entries_eq. reflexivity.
  - apply new_data_of_NoDup.
Qed.

(** C10: the power factor of phase [p] is published under
    ["power_factor" ++ p], with no underscore before the phase, while the
    other seven keys of the phase end in an underscore and the phase. So
    a frame has the key [power_factorl1] and no key [power_factor_l1]. *)
Theorem power_factor_key_has_no_underscore (streamdata : StreamData)
    (phase : string) :
(entries streamdata phase) !! 4%nat
    = Some (("power_factor" +:+ phase)%string, pf (production streamdata phase))
  /\ (entries streamdata phase).*1
     = [ "production_" +:+ phase; "voltage_" +:+ phase; "ampere_" +:+ phase;
         "apparent_power_" +:+ phase; "power_factor" +:+ phase;
         "reactive_power_" +:+ phase; "frequency_" +:+ phase;
         "consumption_" +:+ phase ]%string
  /\ (("power_factor_" +:+ phase)%string ∉ (entries streamdata phase).*1)
  /\ Forall (fun p => ("power_factor" +:+ p)%string ∈ (new_data streamdata).*1
                      /\ ("power_factor_" +:+ p)%string
                         ∉ (new_data streamdata).*1)
       ["l1"; "l2"; "l3"]%string.
Proof.
  rewrite new_data_of_keys, phase_entries_eq. split_and!; try reflexivity.
  - cbn. rewrite !elem_of_cons, elem_of_nil.
    intros [H|[H|[H|[H|[H|[H|[H|[H|[]]]]]]]]]; try discriminate H.
    injection H as H. by apply string_cons_neq in H.
  - repeat constructor; cbn;
      try (apply (bool_decide_unpack _); vm_compute; exact I).
Qed.

(** One item against the current world. *)
Lemma publish_item_cases (item : string * value) (w : world)
    (d : gmap string value) :
  data w = Some d ->
  publish_item item w =
  match live_entities w !! item.1 with
  | Some e =>
      if py_ne (dict_get d item.1) item.2
      then (Ret tt,
            log (EvWriteHaState item.1 e)
              (log (EvSetData item.1 item.2)
                 (set_data (Some (<[item.1 := item.2]> d)) w)))
      else (Ret tt, w)
  | None => (Ret tt, w)
  end.
Proof.
  intros Hd. destruct item as [key v]. cbn [fst snd].
  unfold publish_item, mbind, M_bind, bind, gets. cbn.
  destruct (live_entities w !! key); [|reflexivity].
  rewrite Hd. destruct (py_ne _ _); reflexivity.
Qed.

Lemma item_events_ext (live : gmap string entity) (d d' : gmap string value)
    (items : list (string * value)) :
  (forall item, item ∈ items -> d' !! item.1 = d !! item.1) ->
  flat_map (item_events live d') items = flat_map (item_events live d) items.
Proof.
  induction items as [|item items IH]; intros H; [reflexivity|].
  cbn [flat_map]. rewrite IH by (intros; apply H; by right).
  unfold item_events, dict_get. rewrite (H item) by left. reflexivity.
Qed.

(** The loop over the items, when no key occurs twice: every item is
    judged against the state the frame found, because the writes made for
    earlier items are to other keys. *)
Lemma for_each_publish_item (items : list (string * value)) :
  NoDup items.*1 ->
  forall (w : world) (d : gmap string value),
    data w = Some d ->
    exists d',
      for_each items publish_item w
      = (Ret tt,
         World (get_inverters w) (calls w) (all_values w) (Some d')
               (live_entities w) (unique_id w) (realtime_loop w) (task w)
               (trace w ++ flat_map (item_events (live_entities w) d) items))
      /\ (forall key, key ∉ items.*1 -> d' !! key = d !! key)
      /\ (forall key v,
            (key, v) ∈ items ->
            d' !! key
            = if bool_decide (is_Some (live_entities w !! key))
                 && py_ne (dict_get d key) v
              then Some v else d !! key).
Proof.
  induction items as [|[k0 v0] items IH]; intros Hnd w d Hd.
  - exists d. cbn. rewrite app_nil_r. destruct w; cbn in *; subst.
    split_and!; [reflexivity|done|]. intros ?? H. by apply elem_of_nil in H.
  - apply NoDup_cons in Hnd as [Hk0 Hnd]. cbn [for_each].
    unfold mbind, M_bind, bind.
    rewrite (publish_item_cases _ _ d Hd). cbn [fst snd].
    set (d1 := if bool_decide (is_Some (live_entities w !! k0))
                  && py_ne (dict_get d k0) v0
               then <[k0 := v0]> d else d).
    assert (Hd1 : forall key, key <> k0 -> d1 !! key = d !! key).
    { intros key Hne. subst d1. destruct (_ && _); [|done].
      by rewrite lookup_insert_ne. }
    assert (Hd1k : d1 !! k0
                   = if bool_decide (is_Some (live_entities w !! k0))
                        && py_ne (dict_get d k0) v0
                     then Some v0 else d !! k0).
    { subst d1. destruct (_ && _); [|done]. by rewrite lookup_insert_eq. }
    assert (Hext : flat_map (item_events (live_entities w) d1) items
                   = flat_map (item_events (live_entities w) d) items).
    { apply item_events_ext. intros [k v] Hin. cbn. apply Hd1.
      intros ->. apply Hk0. apply list_elem_of_fmap. by exists (k0, v). }
    assert (Hfin : forall d' : gmap string value,
               (forall key, key ∉ items.*1 -> d' !! key = d1 !! key) ->
               (forall key v, (key, v) ∈ items ->
                  d' !! key
                  = if bool_decide (is_Some (live_entities w !! key))
                       && py_ne (dict_get d1 key) v
                    then Some v else d1 !! key) ->
               (forall key, key ∉ ((k0, v0) :: items).*1 ->
                  d' !! key = d !! key)
               /\ (forall key v, (key, v) ∈ (k0, v0) :: items ->
                     d' !! key
                     = if bool_decide (is_Some (live_entities w !! key))
                          && py_ne (dict_get d key) v
                       then Some v else d !! key)).
    { intros d' Hout Hin. split.
      - intros key Hkey. cbn in Hkey. apply not_elem_of_cons in Hkey as [? ?].
        rewrite Hout by done. by apply Hd1.
      - intros key v [[= -> ->]|Hkv]%elem_of_cons.
        + rewrite Hout by done. exact Hd1k.
        + assert (key <> k0).
          { intros ->. apply Hk0. apply list_elem_of_fmap. by exists (k0, v). }
          rewrite (Hin _ _ Hkv). unfold dict_get. by rewrite !Hd1. }
    destruct (live_entities w !! k0) as [e|] eqn:Hlive.
    + destruct (py_ne (dict_get d k0) v0) eqn:Hne.
      * edestruct (IH Hnd
          (log (EvWriteHaState k0 e)
             (log (EvSetData k0 v0) (set_data (Some (<[k0 := v0]> d)) w)))
          d1) as (d' & Hrun & Hout & Hin).
        { subst d1. cbn. reflexivity. }
        exists d'. split; [|by apply Hfin].
        rewrite Hrun. simpl_world. rewrite Hext.
        cbn [flat_map]. unfold item_events at 2. simpl_world.
        rewrite Hlive, Hne. by rewrite <- !app_assoc.
      * edestruct (IH Hnd w d1) as (d' & Hrun & Hout & Hin).
        { subst d1. cbn. exact Hd. }
        exists d'. split; [|by apply Hfin].
        rewrite Hrun, Hext. cbn [flat_map]. unfold item_events at 2.
        simpl_world. by rewrite Hlive, Hne.
    + edestruct (IH Hnd w d1) as (d' & Hrun & Hout & Hin).
      { subst d1. cbn. exact Hd. }
      exists d'. split; [|by apply Hfin].
      rewrite Hrun, Hext. cbn [flat_map]. unfold item_events at 2.
      simpl_world. by rewrite Hlive.
Qed.

Lemma elem_of_item_events_set (live : gmap string entity)
    (d : gmap string value) (items : list (string * value))
    (key : string) (v : value) :
  EvSetData key v ∈ flat_map (item_events live d) items
  <-> (key, v) ∈ items /\ is_Some (live !! key)
      /\ py_ne (dict_get d key) v = true.
Proof.
  rewrite list_elem_of_In, in_flat_map. split.
  - intros ([k x] & Hin%list_elem_of_In & Hev). unfold item_events in Hev.
    cbn in Hev. destruct (live !! k) as [e|] eqn:Hl; [|destruct Hev].
    destruct (py_ne _ _) eqn:Hne; [|destruct Hev].
    destruct Hev as [[= -> ->]|[[=]|[]]]. rewrite Hl. eauto.
  - intros (Hin & [e Hl] & Hne). exists (key, v).
    split; [by apply list_elem_of_In|].
    unfold item_events. cbn. rewrite Hl, Hne. by left.
Qed.

Lemma elem_of_item_events_write (live : gmap string entity)
    (d : gmap string value) (items : list (string * value))
    (key : string) (e : entity) :
  EvWriteHaState key e ∈ flat_map (item_events live d) items
  <-> exists v, (key, v) ∈ items /\ live !! key = Some e
                /\ py_ne (dict_get d key) v = true.
Proof.
  rewrite list_elem_of_In, in_flat_map. split.
  - intros ([k x] & Hin%list_elem_of_In & Hev). unfold item_events in Hev.
    cbn in Hev. destruct (live !! k) as [e'|] eqn:Hl; [|destruct Hev].
    destruct (py_ne _ _) eqn:Hne; [|destruct Hev].
    destruct Hev as [[=]|[[= -> ->]|[]]]. eauto.
  - intros (v & Hin & Hl & Hne). exists (key, v).
    split; [by apply list_elem_of_In|].
    unfold item_events. cbn. rewrite Hl, Hne. right. by left.
Qed.

Lemma NoDup_keys_value (items : list (string * value)) (key : string)
    (v v' : value) :
  NoDup items.*1 -> (key, v) ∈ items -> (key, v') ∈ items -> v = v'.
Proof.
  induction items as [|[k x] items IH]; intros Hnd H1 H2.
  - by apply elem_of_nil in H1.
  - apply NoDup_cons in Hnd as [Hk Hnd].
    apply elem_of_cons in H1 as [H1|H1];
      apply elem_of_cons in H2 as [H2|H2]; simplify_eq; try done.
    + exfalso. apply Hk. apply list_elem_of_fmap. by exists (k, v').
    + exfalso. apply Hk. apply list_elem_of_fmap. by exists (k, v).
    + by apply IH.
Qed.

(** A frame the throttle drops causes nothing. *)
Lemma dropped_frame_is_noop (streamdata : StreamData) (w : world) :
  publish false streamdata w = (Ret tt, w).
Proof. reflexivity. Qed.

(** C5: for an admitted frame and each derived key, the publisher writes
    the key into [coordinator.data] and calls the entity's
    [async_write_ha_state] exactly when an entity is registered for the
    key and the derived value differs ([!=]) from what
    [coordinator.data.get(key)] gave when the frame arrived. No entity is
    notified for a key missing from the registry, no unchanged value is
    written, and every other key of the shared state keeps its value. *)
Theorem publisher_writes_iff_live_and_changed (streamdata : StreamData)
    (w : world) (d : gmap string value) :
  data w = Some d ->
  let w' := (publish true streamdata w).2 in
  let events := events_of (publish true streamdata) w in
  result_of (publish true streamdata) w = Ret tt
  /\ (forall key v,
        (key, v) ∈ new_data streamdata ->
        (EvSetData key v ∈ events
         <-> is_Some (live_entities w !! key)
             /\ py_ne (dict_get d key) v = true)
        /\ (forall e,
              EvWriteHaState key e ∈ events
              <-> live_entities w !! key = Some e
                  /\ py_ne (dict_get d key) v = true)
        /\ (data w' ≫= (fun d' => d' !! key))
           = if bool_decide (is_Some (live_entities w !! key))
                && py_ne (dict_get d key) v
             then Some v else d !! key)
  /\ (forall key e,
        EvWriteHaState key e ∈ events -> live_entities w !! key = Some e)
  /\ (forall key v,
        EvSetData key v ∈ events -> py_ne (dict_get d key) v = true)
  /\ (forall key,
        key ∉ (new_data streamdata).*1 ->
        (data w' ≫= (fun d' => d' !! key)) = d !! key).
Proof.
  intros Hd w' events.
  destruct (for_each_publish_item (new_data streamdata)
              (new_data_of_NoDup streamdata) w d Hd)
    as (d' & Hrun & Hout & Hin).
  assert (Hev : events
                = flat_map (item_events (live_entities w) d)
                    (new_data streamdata)).
  { subst events. apply events_of_app. unfold update_production_meters.
    rewrite Hrun. reflexivity. }
  assert (Hw' : data w' = Some d').
  { subst w'. unfold update_production_meters. rewrite Hrun. reflexivity. }
  rewrite Hev, Hw'. unfold result_of, update_production_meters.
  rewrite Hrun. cbn [fst mbind option_bind]. split_and!; [reflexivity| | | |].
  - intros key v Hkv. split_and!.
    + rewrite elem_of_item_events_set. split; [by intros (_ & ? & ?)|].
      intros [Hl Hne]. done.
    + intros e. rewrite elem_of_item_events_write. split.
      * intros (v' & Hkv' & Hl & Hne).
        by rewrite (NoDup_keys_value _ _ _ _
                      (new_data_of_NoDup streamdata) Hkv Hkv').
      * intros [Hl Hne]. eauto.
    + by apply Hin.
  - intros key e (v & _ & Hl & _)%elem_of_item_events_write. exact Hl.
  - intros key v (_ & _ & Hne)%elem_of_item_events_set. exact Hne.
  - exact Hout.
Qed.

End Publisher.

(** Witness of C5: a frame against a world where one entity listens to
    [production_l2]. *)
Lemma publisher_writes_iff_live_and_changed_witness :
  data Samples.world_live = Some Samples.snapshot1
  /\ (EvSetData "production_l2" (VNum 20)
      ∈ events_of (update_production_meters Samples.clamp_negative true
                     Samples.frame1) Samples.world_live
      <-> is_Some (live_entities Samples.world_live !! "production_l2")
          /\ py_ne (dict_get Samples.snapshot1 "production_l2") (VNum 20)
             = true).
Proof.
  split; [reflexivity|].
  destruct (publisher_writes_iff_live_and_changed Samples.clamp_negative
              Samples.frame1 Samples.world_live Samples.snapshot1 eq_refl)
    as (_ & Hkeys & _).
  apply (Hkeys "production_l2"%string (VNum 20)).
  apply (bool_decide_unpack _). vm_compute. exact I.
Defined.

Lemma logs_nil (w : world) : logs [] w = w.
Proof. destruct w. unfold logs. cbn. by rewrite app_nil_r. Qed.

Lemma logs_logs (es es' : list event) (w : world) :
  logs es' (logs es w) = logs (es ++ es') w.
Proof. unfold logs. cbn. by rewrite app_assoc. Qed.

Section Supervisor.

Variable options : gmap string value.

Abbreviation loop := (read_realtime_updates options).

(** One transient round: open the stream, warn, sleep 30 seconds, and
    start over on the rest of the environment. *)
Lemma read_realtime_updates_transient (r : round) (env : list round)
    (w : world) :
  transient options r = true ->
  loop (r :: env) w = loop env (logs reconnect_events w).
Proof.
  unfold transient. intros [[Hc Hs]%andb_prop Hz]%andb_prop.
  cbn [read_realtime_updates]. rewrite Hc.
  destruct (stream_end r) as [result| |]; try discriminate.
  destruct (sleep_end r) as [[]| |]; try discriminate.
  apply negb_true_iff in Hs.
  unfold mbind, M_bind, bind, emit, await_point, ret. rewrite Hs.
  unfold logs, reconnect_events. simpl_world.
  by rewrite <- !app_assoc.
Qed.

(** A round that ends with the final [False]. *)
Lemma read_realtime_updates_terminal (r : round) (env : list round)
    (w : world) (result : value) :
  loop_condition options (hass r) = true ->
  stream_end r = Resumed result ->
  py_eq result (VBool false) = true ->
  loop (r :: env) w
  = (Ret tt,
     logs [EvStreamReader;
           EvWarning "Reading /stream/meter failed, stopping realtime updates"]
       w).
Proof.
  intros Hc Hs Hr. cbn [read_realtime_updates]. rewrite Hc, Hs.
  unfold mbind, M_bind, bind, emit, await_point, ret. rewrite Hr.
  unfold logs. simpl_world. by rewrite <- !app_assoc.
Qed.

Lemma read_realtime_updates_transients (pre env : list round) (w : world) :
  Forall (fun r => transient options r = true) pre ->
  loop (pre ++ env) w
  = loop env (logs (flat_map (fun _ => reconnect_events) pre) w).
Proof.
  intros H. revert w. induction H as [|r pre Hr _ IH]; intros w.
  - cbn. by rewrite logs_nil.
  - cbn [app flat_map]. rewrite (read_realtime_updates_transient _ _ _ Hr).
    by rewrite IH, logs_logs.
Qed.

(** C6, as amended, for stream reads that return: after any number of
    stream reads that return something other than the final [False],
    each followed by a 30 second sleep and a new [stream_reader] call
    while the loop condition holds, a stream read that returns a result
    with [result == False] makes the loop return; what the environment
    would offer afterwards is never looked at, so the stream is not
    opened again. Without such an end the loop is still going after
    every one of the reconnects. *)
Theorem read_realtime_updates_reconnects (pre : list round) (r : round)
    (env : list round) (w : world) (result : value) :
  Forall (fun r => transient options r = true) pre ->
  loop_condition options (hass r) = true ->
  stream_end r = Resumed result ->
  py_eq result (VBool false) = true ->
  loop (pre ++ r :: env) w
  = (Ret tt,
     logs (flat_map (fun _ => reconnect_events) pre
           ++ [EvStreamReader;
               EvWarning
                 "Reading /stream/meter failed, stopping realtime updates"])
       w)
  /\ loop (pre ++ env) w
     = loop env (logs (flat_map (fun _ => reconnect_events) pre) w)
  /\ loop pre w
     = (Blocks, logs (flat_map (fun _ => reconnect_events) pre) w).
Proof.
  intros Hpre Hc Hs Hr. split_and!.
  - rewrite (read_realtime_updates_transients _ _ _ Hpre).
    rewrite (read_realtime_updates_terminal _ _ _ _ Hc Hs Hr).
    by rewrite logs_logs.
  - by apply read_realtime_updates_transients.
  - rewrite <- (app_nil_r pre) at 1.
    by rewrite (read_realtime_updates_transients _ _ _ Hpre).
Qed.

(** An exception that surfaces in the stream read or in the reconnect
    delay ends the loop with that exception: no handler is in the way. In
    particular a cancelled task unwinds with [CancelledError]. *)
Lemma read_realtime_updates_raises (r : round) (env : list round)
    (w : world) (e : exn) :
  loop_condition options (hass r) = true ->
  stream_end r = Thrown e
  \/ (exists result, stream_end r = Resumed result
                     /\ py_eq result (VBool false) = false
                     /\ sleep_end r = Thrown e) ->
  result_of (loop (r :: env)) w = Raise e.
Proof.
  intros Hc [Hs|(result & Hs & Hr & Hz)]; unfold result_of;
    cbn [read_realtime_updates]; rewrite Hc, Hs;
    unfold mbind, M_bind, bind, emit, await_point, ret, raise;
    [reflexivity|]. by rewrite Hr, Hz.
Qed.

End Supervisor.

(** Witness of C6: two dropped connections, then the final [False]. *)
Lemma read_realtime_updates_reconnects_witness :
  events_of (read_realtime_updates Samples.realtime_options
               [Samples.round_drop; Samples.round_drop; Samples.round_final;
                Samples.round_drop]) Samples.world_streaming
  = [EvStreamReader; EvWarning "Re-connecting /stream/meter"; EvSleep 30;
     EvStreamReader; EvWarning "Re-connecting /stream/meter"; EvSleep 30;
     EvStreamReader;
     EvWarning "Reading /stream/meter failed, stopping realtime updates"].
Proof.
  apply events_of_app.
  destruct (read_realtime_updates_reconnects Samples.realtime_options
              [Samples.round_drop; Samples.round_drop] Samples.round_final
              [Samples.round_drop] Samples.world_streaming (VBool false))
    as (Hrun & _).
  - repeat constructor.
  - reflexivity.
  - reflexivity.
  - reflexivity.
  - cbn [app] in Hrun. rewrite Hrun. reflexivity.
Defined.

(** C6 fails as stated for a stream read that ends by raising: with the
    loop condition holding throughout, the loop ends with the exception
    of [stream_reader]; it neither sleeps nor calls [stream_reader]
    again, although the end was not the final [False]. *)
Lemma reconnect_skipped_when_stream_read_raises :
  loop_condition Samples.realtime_options (hass Samples.round_broken) = true
  /\ loop_condition Samples.realtime_options (hass Samples.round_drop) = true
  /\ result_of (read_realtime_updates Samples.realtime_options
                  [Samples.round_broken; Samples.round_drop])
       Samples.world_streaming
     = Raise (HTTPError "read timeout")
  /\ events_of (read_realtime_updates Samples.realtime_options
                  [Samples.round_broken; Samples.round_drop])
       Samples.world_streaming
     = [EvStreamReader]
  /\ ~ (EvSleep 30
        ∈ events_of (read_realtime_updates Samples.realtime_options
                       [Samples.round_broken; Samples.round_drop])
            Samples.world_streaming).
Proof.
  assert (Hev : events_of (read_realtime_updates Samples.realtime_options
                             [Samples.round_broken; Samples.round_drop])
                  Samples.world_streaming
                = [EvStreamReader])
    by (apply events_of_app; reflexivity).
  rewrite Hev. split_and!; try reflexivity.
  rewrite elem_of_cons, elem_of_nil. intros [?|[]]. discriminate.
Qed.

Section Lifecycle.

Variable device : nat -> bool -> value -> getData_outcome.
Variable serial_device : serial_outcome.
Variable options : gmap string value.
Variable DEFAULT_GETDATA_TIMEOUT : value.
Variable config : gmap string value.
Variable consts : constants.
Variable platform_setup : forward_outcome.

Abbreviation setup :=
  (async_setup_entry device serial_device options DEFAULT_GETDATA_TIMEOUT
     config consts platform_setup).

(** A first refresh does not touch the task. *)
Lemma first_refresh_task (w : world) :
  task (async_config_entry_first_refresh device options
          DEFAULT_GETDATA_TIMEOUT w).2 = task w.
Proof. rewrite first_refresh_cases. destruct (device _ _ _); reflexivity. Qed.

(** Hence the initial refresh does not either. *)
Lemma initial_refresh_task (w : world) :
  task (initial_refresh device options DEFAULT_GETDATA_TIMEOUT w).2 = task w.
Proof.
  rewrite initial_refresh_cases.
  destruct (device _ _ _); rewrite first_refresh_task; reflexivity.
Qed.

(** Neither does the request for the serial number. *)
Lemma fetch_unique_id_task (w : world) :
  task (fetch_unique_id serial_device w).2 = task w.
Proof.
  unfold fetch_unique_id, get_full_serial_number, async_update_entry,
    mbind, M_bind, bind, emit, modify, ret, raise.
  destruct serial_device; reflexivity.
Qed.

(** Lines 122-207 of setup, from the world [w2]. *)
Ltac setup_rest w2 :=
  unfold async_forward_entry_setups, mbind, M_bind, bind, emit, modify,
    raise, ret;
  destruct platform_setup as [registered|name]; [|reflexivity];
  cbn [live_entities log set_live_entities]; rewrite (right_id_L ∅ (∪));
  destruct (timedelta_error _); [reflexivity|];
  destruct w2 as [gi c av d le u rl t tr];
  unfold store_realtime_loop, setup_finish;
  destruct (truthy _); cbv -[app]; [destruct t|destruct t];
  by rewrite <- ?app_assoc.

(** Setup stage by stage: the lookups in [entry.data], the token store
    and the update interval, the initial refresh, the serial number when
    the entry has no unique id, the platforms, the throttle interval, and
    the rest, which cannot fail. *)
Lemma async_setup_entry_cases (w : world) :
  setup w
  = if negb (config_complete config consts)
    then (Raise (OtherError "KeyError"), set_task None w)
    else
      let w0 :=
        log (EvSyncStore true) (set_get_inverters true (set_task None w)) in
      match timedelta_error
              (dict_get_default options "time_between_update"
                 (DEFAULT_SCAN_INTERVAL consts))
      with
      | Some e => (Raise e, w0)
      | None =>
          match initial_refresh device options DEFAULT_GETDATA_TIMEOUT w0 with
          | (Ret _, w1) =>
              match (if no_unique_id w1 then fetch_unique_id serial_device
                     else ret tt) w1
              with
              | (Ret _, w2) =>
                  let w3 :=
                    log EvForwardSetups
                      (set_live_entities ∅
                         (set_realtime_loop (Some None) w2)) in
                  match platform_setup with
                  | ForwardRaised name => (Raise (OtherError name), w3)
                  | Forwarded registered =>
                      match timedelta_error
                              (dict_get_default options
                                 "realtime_update_throttle"
                                 (DEFAULT_REALTIME_UPDATE_THROTTLE consts))
                      with
                      | Some e => (Raise e, set_live_entities registered w3)
                      | None =>
                          (Ret true, setup_finish options registered w2)
                      end
                  end
              | (Raise e, w2) => (Raise e, w2)
              | (Blocks, w2) => (Blocks, w2)
              end
          | (Raise e, w1) => (Raise e, w1)
          | (Blocks, w1) => (Blocks, w1)
          end
      end.
Proof.
  unfold async_setup_entry, config_complete, dict_index.
  unfold mbind, M_bind, bind, modify.
  destruct (config !! CONF_NAME consts); [|reflexivity].
  destruct (config !! CONF_HOST consts); [|reflexivity].
  destruct (config !! CONF_USERNAME consts); [|reflexivity].
  destruct (config !! CONF_PASSWORD consts); [|reflexivity].
  destruct (config !! CONF_SERIAL consts); [|reflexivity].
  cbn [ret bool_decide andb negb]. rewrite !bool_decide_eq_true_2 by eauto.
  cbn [andb negb]. unfold _sync_store, emit, timedelta, raise, ret.
  destruct (timedelta_error (dict_get_default options "time_between_update" _));
    [reflexivity|].
  cbn zeta.
  destruct (initial_refresh _ _ _ _) as [[[]| |] w1]; try reflexivity.
  unfold gets, no_unique_id.
  destruct (unique_id w1) as [id|]; [destruct (bool_decide _)|].
  - destruct (fetch_unique_id serial_device w1) as [[[]| |] w2];
      try reflexivity. setup_rest w2.
  - setup_rest w1.
  - destruct (fetch_unique_id serial_device w1) as [[[]| |] w2];
      try reflexivity. setup_rest w2.
Qed.

(** A setup that returns went through every stage. *)
Lemma async_setup_entry_Ret_inv (w w' : world) (b : bool) :
  setup w = (Ret b, w') ->
  exists w1 w2 registered,
    b = true
    /\ platform_setup = Forwarded registered
    /\ initial_refresh device options DEFAULT_GETDATA_TIMEOUT
         (log (EvSyncStore true) (set_get_inverters true (set_task None w)))
       = (Ret tt, w1)
    /\ (if no_unique_id w1 then fetch_unique_id serial_device else ret tt) w1
       = (Ret tt, w2)
    /\ w' = setup_finish options registered w2.
Proof.
  rewrite async_setup_entry_cases.
  destruct (negb _); [discriminate|]. cbn zeta.
  destruct (timedelta_error _); [discriminate|].
  destruct (initial_refresh _ _ _ _) as [[[]| |] w1] eqn:H1;
    try discriminate.
  destruct ((if no_unique_id w1 then fetch_unique_id serial_device
             else ret tt) w1) as [[[]| |] w2] eqn:H2; try discriminate.
  destruct platform_setup as [registered|name]; [|discriminate].
  destruct (timedelta_error _); [discriminate|].
  intros [= <- <-]. by exists w1, w2, registered.
Qed.

(** With realtime updates off, a completed setup has created no task and
    has stored [None] in the entry's slot. *)
Lemma setup_without_realtime (w w' : world) (b : bool) :
  truthy (dict_get_default options "enable_realtime_updates" (VBool false))
  = false ->
  setup w = (Ret b, w') ->
  task w' = None /\ realtime_loop w' = Some (Some ONone).
Proof.
  intros Hoff H.
  apply async_setup_entry_Ret_inv in H
    as (w1 & w2 & registered & _ & _ & H1 & H2 & ->).
  assert (Ht1 : task w1 = None).
  { pose proof (initial_refresh_task
                  (log (EvSyncStore true)
                     (set_get_inverters true (set_task None w)))) as Ht.
    by rewrite H1 in Ht. }
  assert (Ht2 : task w2 = None).
  { rewrite <- Ht1. destruct (no_unique_id w1).
    - pose proof (fetch_unique_id_task w1) as Ht. by rewrite H2 in Ht.
    - by injection H2 as <-. }
  unfold setup_finish. cbn zeta. rewrite Hoff. cbn [task realtime_loop].
  by rewrite Ht2.
Qed.

(** C7, as amended: with the stream task pending, unload cancels the
    task and awaits it under [suppress], so the task has ended cancelled
    before the platforms are unloaded. The host-stop handler only
    requests the cancellation and stores [False] in the slot: it returns
    without awaiting the task, which is still pending then; an unload
    that runs afterwards finds [False] in the slot and neither cancels
    nor awaits, the task being cancelled by the event loop in the
    meantime. *)
Theorem stop_handler_does_not_await (w : world) (requested ok : bool) :
  task w = Some (Pending requested) ->
  realtime_loop w = Some (Some OTask) ->
  (result_of (async_unload_entry ok) w = Ret ok
   /\ events_of (async_unload_entry ok) w
      = [EvCancel; EvAwaitTask; EvUnloadPlatforms]
   /\ task (async_unload_entry ok w).2 = Some Cancelled)
  /\ (result_of _async_stop w = Ret tt
      /\ events_of _async_stop w = [EvCancel]
      /\ task (_async_stop w).2 = Some (Pending true)
      /\ realtime_loop (_async_stop w).2 = Some (Some OFalse))
  /\ (events_of (async_unload_entry ok) (_async_stop w).2
      = [EvUnloadPlatforms]
      /\ task (async_unload_entry ok (_async_stop w).2).2 = Some Cancelled).
Proof.
  intros Ht Hs. destruct w as [gi c av d le u rl t tr].
  cbn in Ht, Hs. subst rl t.
  destruct ok; split_and!; try reflexivity;
    apply events_of_app; cbv -[app]; by rewrite <- ?app_assoc.
Qed.

(** C8 on the code: after a setup with realtime updates off the task
    handle is [None]; the host-stop handler then fails with
    [AttributeError] at [task.cancel()] and changes nothing, while the
    unload handler skips the cancellation and completes. *)
Theorem stop_handler_fails_without_task (w w' : world) (b ok : bool) :
  truthy (dict_get_default options "enable_realtime_updates" (VBool false))
  = false ->
  setup w = (Ret b, w') ->
  task w' = None
  /\ _async_stop w'
     = (Raise (AttributeError "'NoneType' object has no attribute 'cancel'"),
        w')
  /\ result_of (async_unload_entry ok) w' = Ret ok
  /\ events_of (async_unload_entry ok) w' = [EvUnloadPlatforms].
Proof.
  intros Hoff Hsetup.
  destruct (setup_without_realtime _ _ _ Hoff Hsetup) as [Ht Hs].
  clear Hsetup. destruct w' as [gi c av d le u rl t tr].
  cbn in Ht, Hs. subst rl t.
  destruct ok; split_and!; try reflexivity;
    apply events_of_app; cbv -[app]; by rewrite <- ?app_assoc.
Qed.

End Lifecycle.

(** Witness of C7: the stream task is pending when the host stops. *)
Lemma stop_handler_does_not_await_witness :
  task Samples.world_streaming = Some (Pending false)
  /\ realtime_loop Samples.world_streaming = Some (Some OTask)
  /\ events_of (async_unload_entry true) Samples.world_streaming
     = [EvCancel; EvAwaitTask; EvUnloadPlatforms]
  /\ events_of _async_stop Samples.world_streaming = [EvCancel].
Proof.
  destruct (stop_handler_does_not_await Samples.world_streaming false true
              eq_refl eq_refl) as ((_ & Hunload & _) & (_ & Hstop & _) & _).
  split_and!; [reflexivity | reflexivity | exact Hunload | exact Hstop].
Defined.

(** C7 fails as stated for the host-stop handler: with the stream task
    pending, the handler returns after [task.cancel()] alone; the task
    has not been awaited and is still pending. *)
Lemma stop_handler_returns_before_task_ends :
  result_of _async_stop Samples.world_streaming = Ret tt
  /\ ~ (EvAwaitTask ∈ events_of _async_stop Samples.world_streaming)
  /\ task (_async_stop Samples.world_streaming).2 = Some (Pending true).
Proof.
  split_and!; [reflexivity| |reflexivity].
  assert (Hev : events_of _async_stop Samples.world_streaming = [EvCancel])
    by (apply events_of_app; reflexivity).
  rewrite Hev, elem_of_cons, elem_of_nil. intros [?|[]]. discriminate.
Qed.

(** Witness of C8: setup against a willing device, no options set. *)
Lemma stop_handler_fails_without_task_witness :
  result_of _async_stop
    (async_setup_entry Samples.device_ok (Serial "122019000001")
       Samples.no_options (VNum 30)
       Samples.config1 Samples.consts1 Samples.platforms1 Samples.world0).2
  = Raise (AttributeError "'NoneType' object has no attribute 'cancel'").
Proof.
  assert (Hoff : truthy (dict_get_default Samples.no_options
                           "enable_realtime_updates" (VBool false)) = false)
    by (vm_compute; reflexivity).
  assert (Hret : (async_setup_entry Samples.device_ok (Serial "122019000001")
                    Samples.no_options (VNum 30)
       Samples.config1 Samples.consts1 Samples.platforms1 Samples.world0).1 = Ret true)
    by (vm_compute; reflexivity).
  assert (Hsetup : async_setup_entry Samples.device_ok (Serial "122019000001")
                     Samples.no_options (VNum 30)
       Samples.config1 Samples.consts1 Samples.platforms1 Samples.world0
                   = (Ret true,
                      (async_setup_entry Samples.device_ok
                         (Serial "122019000001") Samples.no_options (VNum 30)
       Samples.config1 Samples.consts1 Samples.platforms1
                         Samples.world0).2))
    by (rewrite <- Hret; apply surjective_pairing).
  destruct (stop_handler_fails_without_task Samples.device_ok
              (Serial "122019000001") Samples.no_options (VNum 30)
       Samples.config1 Samples.consts1 Samples.platforms1
              Samples.world0 _ true true Hoff Hsetup) as (_ & Hstop & _).
  unfold result_of. rewrite Hstop. reflexivity.
Defined.

(** ** Concrete runs *)

(** Three scheduled polls against a device that is unreachable on the
    second one: that poll is reported as failed, syncs nothing and leaves
    the snapshot of the first poll in place. *)
Example refreshes_flaky_device :
  events_of (refreshes Samples.device_flaky Samples.no_options (VNum 30) 3)
    Samples.world0
  = [EvGetData true; EvSyncStore false;
     EvGetData true;
     EvGetData true; EvSyncStore false]
  /\ result_of (async_update_data Samples.device_flaky Samples.no_options
                  (VNum 30))
       (async_refresh Samples.device_flaky Samples.no_options (VNum 30)
          Samples.world0).2
     = Raise (UpdateFailed "Error communicating with API: connection refused")
  /\ (data (refreshes Samples.device_flaky Samples.no_options (VNum 30) 2
              Samples.world0).2
      ≫= fun d => d !! "production"%string)
     = Some (VNum 1200).
Proof. split_and!; vm_compute; reflexivity. Qed.

(** A device that rejects every request: setup stops in the second auth
    failure after two reader calls, before anything else is set up. *)
Example setup_denied_device :
  result_of (async_setup_entry Samples.device_denied (Serial "122019000001")
               Samples.realtime_options (VNum 30)
       Samples.config1 Samples.consts1 Samples.platforms1) Samples.world0
  = Raise ConfigEntryAuthFailed
  /\ events_of (async_setup_entry Samples.device_denied
                  (Serial "122019000001") Samples.realtime_options (VNum 30)
       Samples.config1 Samples.consts1 Samples.platforms1)
       Samples.world0
     = [EvSyncStore true; EvGetData true; EvGetData false].
Proof. vm_compute. split; reflexivity. Qed.

(** With realtime updates on, setup creates the task and stores it. *)
Example setup_with_realtime :
  let w := (async_setup_entry Samples.device_installer_denied
              (Serial "122019000001") Samples.realtime_options (VNum 30)
       Samples.config1 Samples.consts1 Samples.platforms1
              Samples.world0).2 in
  trace w
  = [EvSyncStore true; EvGetData true; EvGetData false; EvSyncStore false;
     EvGetSerial; EvUpdateEntry "122019000001"; EvForwardSetups;
     EvCreateTask; EvListenStop]
  /\ task w = Some (Pending false)
  /\ realtime_loop w = Some (Some OTask).
Proof. vm_compute. split_and!; reflexivity. Qed.

(** ** Further properties of the poll cycle *)

Section PollCycle.

Variable device : nat -> bool -> value -> getData_outcome.
Variable options : gmap string value.
Variable DEFAULT_GETDATA_TIMEOUT : value.

Abbreviation timeout' :=
  (dict_get_default options "getdata_timeout" DEFAULT_GETDATA_TIMEOUT).







End PollCycle.


(** ** Further properties of setup *)

Section Setup.

Variable device : nat -> bool -> value -> getData_outcome.
Variable serial_device : serial_outcome.
Variable options : gmap string value.
Variable DEFAULT_GETDATA_TIMEOUT : value.
Variable config : gmap string value.
Variable consts : constants.
Variable platform_setup : forward_outcome.

Abbreviation setup' :=
  (async_setup_entry device serial_device options DEFAULT_GETDATA_TIMEOUT
     config consts platform_setup).
Abbreviation first_poll :=
  (initial_refresh device options DEFAULT_GETDATA_TIMEOUT).
Abbreviation realtime :=
  (truthy (dict_get_default options "enable_realtime_updates" (VBool false))).
Abbreviation interval :=
  (dict_get_default options "time_between_update"
     (DEFAULT_SCAN_INTERVAL consts)).
Abbreviation throttle :=
  (dict_get_default options "realtime_update_throttle"
     (DEFAULT_REALTIME_UPDATE_THROTTLE consts)).

(** What the initial refresh leaves alone. *)
Lemma initial_refresh_frame (w : world) :
  live_entities (first_poll w).2 = live_entities w
  /\ unique_id (first_poll w).2 = unique_id w
  /\ realtime_loop (first_poll w).2 = realtime_loop w
  /\ task (first_poll w).2 = task w.
Proof.
  rewrite initial_refresh_cases.
  destruct (device (calls w) (get_inverters w) _);
    rewrite first_refresh_cases; by destruct (device _ _ _).
Qed.

(** What it adds to the trace, and that it ends. *)
Lemma initial_refresh_trace (w : world) :
  (exists es,
     trace (first_poll w).2 = trace w ++ EvGetData (get_inverters w) :: es
     /\ Forall (fun e => e = EvGetData false \/ e = EvSyncStore false) es)
  /\ match (first_poll w).1 with
     | Ret _ => is_Some (data (first_poll w).2)
     | Raise _ => data (first_poll w).2 = data w
     | Blocks => False
     end.
Proof.
  destruct w as [gi c av d le u rl t tr].
  rewrite initial_refresh_cases. cbn [calls get_inverters].
  destruct (device c gi _) eqn:H1; rewrite first_refresh_cases.
  2: { cbv -[app dict_get_default].
       destruct (device _ false _); cbv -[app]; (split; [|by eauto]).
       - exists [EvGetData false; EvSyncStore false].
         rewrite <- !app_assoc. split; [done|]; repeat first [apply List.Forall_nil | apply List.Forall_cons; [by eauto|]].
       - exists [EvGetData false]. rewrite <- !app_assoc. split; [done|]; repeat first [apply List.Forall_nil | apply List.Forall_cons; [by eauto|]].
       - exists [EvGetData false]. rewrite <- !app_assoc. split; [done|]; repeat first [apply List.Forall_nil | apply List.Forall_cons; [by eauto|]].
       - exists [EvGetData false]. rewrite <- !app_assoc. split; [done|]; repeat first [apply List.Forall_nil | apply List.Forall_cons; [by eauto|]].
       - exists [EvGetData false]. rewrite <- !app_assoc. split; [done|]; repeat first [apply List.Forall_nil | apply List.Forall_cons; [by eauto|]]. }
  all: cbn [calls get_inverters]; rewrite H1; cbv -[app]; (split; [|by eauto]).
  - exists [EvSyncStore false]. rewrite <- !app_assoc. split; [done|]; repeat first [apply List.Forall_nil | apply List.Forall_cons; [by eauto|]].
  - exists []. by split.
  - exists []. by split.
  - exists []. by split.
Qed.

Lemma fetch_unique_id_cases (w : world) :
  fetch_unique_id serial_device w
  = match serial_device with
    | Serial s =>
        (Ret tt,
         set_unique_id (Some s) (log (EvUpdateEntry s) (log EvGetSerial w)))
    | SerialHTTPError => (Ret tt, log EvGetSerial w)
    | SerialOther name => (Raise (OtherError name), log EvGetSerial w)
    end.
Proof.
  unfold fetch_unique_id, get_full_serial_number, async_update_entry,
    mbind, M_bind, bind, emit, modify, ret, raise.
  destruct serial_device; reflexivity.
Qed.

(** The initial refresh of setup, from the world in which it starts. *)
Lemma first_poll_stage (w : world) :
  let run := first_poll (before_first_poll w) in
  live_entities run.2 = live_entities w
  /\ unique_id run.2 = unique_id w
  /\ realtime_loop run.2 = realtime_loop w
  /\ task run.2 = None
  /\ match run.1 with
     | Ret _ => is_Some (data run.2)
     | Raise _ => True
     | Blocks => False
     end
  /\ exists es1,
       trace run.2 = trace w ++ EvSyncStore true :: EvGetData true :: es1
       /\ Forall (fun e => e = EvGetData false \/ e = EvSyncStore false) es1.
Proof.
  cbn zeta.
  destruct (initial_refresh_frame (before_first_poll w))
    as (Hlive & Huid & Hslot & Htask).
  destruct (initial_refresh_trace (before_first_poll w))
    as [(es1 & Htrace & Hes1) Hdata].
  split_and!; try done.
  - by destruct (first_poll (before_first_poll w)).1.
  - exists es1. split; [|done]. rewrite Htrace.
    unfold before_first_poll. cbn [trace log set_get_inverters set_task
      get_inverters]. by rewrite <- app_assoc.
Qed.

(** The request for the serial number, made for an entry without unique
    id. *)
Lemma fetch_stage (w1 : world) :
  let run := (if no_unique_id w1 then fetch_unique_id serial_device
              else ret tt) w1 in
  live_entities run.2 = live_entities w1
  /\ realtime_loop run.2 = realtime_loop w1
  /\ task run.2 = task w1
  /\ data run.2 = data w1
  /\ trace run.2
     = trace w1
       ++ (if no_unique_id w1 then
             EvGetSerial
             :: match serial_device with
                | Serial s => [EvUpdateEntry s]
                | _ => []
                end
           else [])
  /\ run.1
     = (if no_unique_id w1 then
          match serial_device with
          | SerialOther name => Raise (OtherError name)
          | _ => Ret tt
          end
        else Ret tt)
  /\ unique_id run.2
     = (if no_unique_id w1 then
          match serial_device with
          | Serial s => Some s
          | _ => unique_id w1
          end
        else unique_id w1).
Proof.
  cbn zeta. destruct (no_unique_id w1).
  - rewrite fetch_unique_id_cases.
    destruct serial_device; cbn; rewrite <- ?app_assoc; done.
  - cbn. by rewrite app_nil_r.
Qed.

(** The stages of setup, each with what is known of it. *)
Ltac setup_stages w :=
  rewrite ?async_setup_entry_cases; cbv zeta;
  change (log (EvSyncStore true) (set_get_inverters true (set_task None w)))
    with (before_first_poll w);
  pose proof (first_poll_stage w) as Hpoll; cbn zeta in Hpoll;
  destruct Hpoll
    as (Hlive & Huid & Hslot & Htask & Hdata & es1 & Htrace & Hes1);
  destruct (first_poll (before_first_poll w)) as [r1 w1];
  cbn [fst snd] in Hlive, Huid, Hslot, Htask, Hdata, Htrace;
  pose proof (fetch_stage w1) as Hfetch; cbn zeta in Hfetch;
  destruct Hfetch
    as (Hlive2 & Hslot2 & Htask2 & Hdata2 & Htrace2 & Hres2 & Huid2);
  destruct ((if no_unique_id w1 then fetch_unique_id serial_device
             else ret tt) w1) as [r2 w2];
  cbn [fst snd] in Hlive2, Hslot2, Htask2, Hdata2, Htrace2, Hres2, Huid2;
  assert (Hno : no_unique_id w1 = no_unique_id w)
    by (unfold no_unique_id; by rewrite Huid);
  rewrite Hno in Htrace2, Hres2, Huid2;
  rewrite Htrace in Htrace2; rewrite <- app_assoc in Htrace2;
  rewrite Hlive in Hlive2; rewrite Hslot in Hslot2; rewrite Htask in Htask2;
  rewrite Huid in Huid2.


(** X4: the result of setup. It fails with [KeyError] when [entry.data]
    lacks a key, with the exception of [timedelta] when the update
    interval or, after the platforms were set up, the throttle interval
    is no valid number of seconds, with the exception of the initial
    refresh when that fails, with what setting up the platforms raises,
    and, for an entry without unique id, with what the request for the
    serial number raises unless that is an HTTP error, which is
    swallowed. In every other case it returns [True]. *)
Theorem setup_result (w : world) :
  result_of setup' w
  = (if config_complete config consts then
       match timedelta_error interval with
       | Some e => Raise e
       | None =>
           match result_of first_poll (before_first_poll w) with
           | Ret _ =>
               let rest :=
                 match platform_setup with
                 | ForwardRaised name => Raise (OtherError name)
                 | Forwarded _ =>
                     match timedelta_error throttle with
                     | Some e => Raise e
                     | None => Ret true
                     end
                 end in
               if no_unique_id w then
                 match serial_device with
                 | SerialOther name => Raise (OtherError name)
                 | _ => rest
                 end
               else rest
           | Raise e => Raise e
           | Blocks => Blocks
           end
       end
     else Raise (OtherError "KeyError")).
Proof.
  unfold result_of. setup_stages w. subst r2.
  destruct (config_complete config consts); [|reflexivity]. cbn [negb fst].
  destruct (timedelta_error interval); [reflexivity|].
  destruct r1 as [[]|e1|]; try reflexivity. cbn zeta.
  destruct (no_unique_id w); [destruct serial_device|];
    destruct platform_setup; try reflexivity;
    destruct (timedelta_error throttle); reflexivity.
Qed.

(** X5: a setup that raises has created no stream task and registered no
    stop listener. Either it stopped before the entry got its dict in
    [hass.data], and then the entry's slot and the registry of live
    entities are as they were; or it stopped right after the platforms
    were set up, and then the entry's dict is left behind without a
    [realtime_loop] key. *)
Theorem failed_setup_starts_nothing (w : world) (e : exn) :
  result_of setup' w = Raise e ->
  task (setup' w).2 = None
  /\ (EvCreateTask ∉ events_of setup' w)
  /\ (EvListenStop ∉ events_of setup' w)
  /\ (((EvForwardSetups ∉ events_of setup' w)
       /\ realtime_loop (setup' w).2 = realtime_loop w
       /\ live_entities (setup' w).2 = live_entities w)
      \/ (last (events_of setup' w) = Some EvForwardSetups
          /\ realtime_loop (setup' w).2 = Some None)).
Proof.
  unfold result_of, events_of. setup_stages w.
  set (F := if no_unique_id w then _ else []) in Htrace2.
  assert (HF : forall e', before_entry_dict e' = false -> e' ∉ F).
  { intros e' He' Hin. subst F.
    destruct (no_unique_id w); [destruct serial_device|];
      repeat (rewrite ?elem_of_cons, ?elem_of_nil in Hin);
      intuition (subst; discriminate). }
  assert (H1 : forall e', before_entry_dict e' = false -> e' ∉ es1).
  { intros e' He' Hin. rewrite Forall_forall in Hes1.
    destruct (Hes1 _ Hin); subst; discriminate. }
  assert (Hpoll : forall e', before_entry_dict e' = false ->
             e' ∉ EvSyncStore true :: EvGetData true :: es1).
  { intros e' He'. rewrite !elem_of_cons.
    intros [->|[->|Hin]]; try discriminate. by apply (H1 e'). }
  assert (Hfetch : forall e', before_entry_dict e' = false ->
             e' ∉ (EvSyncStore true :: EvGetData true :: es1) ++ F).
  { intros e' He'. rewrite elem_of_app.
    intros [Hin|Hin]; [by apply (Hpoll e')|by apply (HF e')]. }
  destruct (config_complete config consts); cbn [negb fst snd].
  2: { intros _. cbn [task trace realtime_loop live_entities set_task].
       rewrite drop_all. split_and!; [done|by intros ?%elem_of_nil..|].
       left. split_and!; [by intros ?%elem_of_nil|done..]. }
  destruct (timedelta_error interval).
  { intros _. unfold before_first_poll.
    cbn [fst snd task trace realtime_loop live_entities log
         set_get_inverters set_task].
    rewrite drop_app_length.
    split_and!; [done| | |left; split_and!; [|done..]];
      rewrite elem_of_cons, elem_of_nil; intuition discriminate. }
  destruct r1 as [[]|e1|]; cbn [fst snd]; [| |discriminate].
  2: { intros _. rewrite Htrace, drop_app_length.
       split_and!; [done|by apply Hpoll..|].
       left. split_and!; [by apply Hpoll|done..]. }
  destruct r2 as [[]|e2|]; cbn [fst snd]; [| |discriminate].
  2: { intros _. rewrite Htrace2, drop_app_length.
       split_and!; [done|by apply Hfetch..|].
       left. split_and!; [by apply Hfetch|done..]. }
  assert (Hlast : forall W : world,
             task W = None ->
             realtime_loop W = Some None ->
             trace W = trace w2 ++ [EvForwardSetups] ->
             task W = None
             /\ (EvCreateTask ∉ drop (length (trace w)) (trace W))
             /\ (EvListenStop ∉ drop (length (trace w)) (trace W))
             /\ (((EvForwardSetups ∉ drop (length (trace w)) (trace W))
                  /\ realtime_loop W = realtime_loop w
                  /\ live_entities W = live_entities w)
                 \/ (last (drop (length (trace w)) (trace W))
                     = Some EvForwardSetups
                     /\ realtime_loop W = Some None))).
  { intros W HtW HsW HtrW.
    rewrite HtrW, Htrace2, <- app_assoc, drop_app_length.
    split_and!; [done| | |right; split; [apply last_snoc|done]];
      rewrite elem_of_app, elem_of_cons, elem_of_nil;
      intros [Hin|[?|[]]]; try discriminate; by apply Hfetch in Hin. }
  destruct platform_setup as [registered|name]; cbn [fst snd].
  - destruct (timedelta_error throttle); [|discriminate]. intros _.
    apply Hlast; cbn [task trace realtime_loop log set_live_entities
      set_realtime_loop]; done.
  - intros _. apply Hlast; cbn [task trace realtime_loop log
      set_live_entities set_realtime_loop]; done.
Qed.

(** The state a returning setup leaves. *)
Lemma async_setup_entry_returns (w w' : world) (b : bool) :
  setup' w = (Ret b, w') ->
  b = true
  /\ config_complete config consts = true
  /\ timedelta_error interval = None
  /\ timedelta_error throttle = None
  /\ is_Some (data w')
  /\ platform_setup = Forwarded (live_entities w')
  /\ task w' = (if realtime then Some (Pending false) else None)
  /\ realtime_loop w' = Some (Some (if realtime then OTask else ONone))
  /\ unique_id w'
     = (if no_unique_id w then
          match serial_device with
          | Serial s => Some s
          | _ => unique_id w
          end
        else unique_id w)
  /\ exists es1,
       Forall (fun e => e = EvGetData false \/ e = EvSyncStore false) es1
       /\ trace w'
          = trace w
            ++ (EvSyncStore true :: EvGetData true :: es1)
            ++ (if no_unique_id w then
                  EvGetSerial
                  :: match serial_device with
                     | Serial s => [EvUpdateEntry s]
                     | _ => []
                     end
                else [])
            ++ EvForwardSetups
               :: (if realtime then [EvCreateTask] else [])
            ++ [EvListenStop].
Proof.
  setup_stages w.
  destruct (config_complete config consts); [|discriminate]. cbn [negb].
  destruct (timedelta_error interval); [discriminate|].
  destruct r1 as [[]|e1|]; try discriminate.
  destruct r2 as [[]|e2|]; try discriminate.
  destruct platform_setup as [registered|name]; [|discriminate].
  destruct (timedelta_error throttle); [discriminate|].
  intros [= <- <-]. unfold setup_finish. cbn zeta.
  cbn [data live_entities task realtime_loop unique_id trace].
  rewrite Htask2, Hdata2, Huid2, Htrace2, <- !app_assoc.
  split_and!; try done; try (by destruct realtime).
  exists es1. split; [done|]. by rewrite <- ?app_assoc.
Qed.

(** X6: a setup that returns has returned [True]; [entry.data] was
    complete and both intervals valid; [coordinator.data] holds a
    snapshot; the registry of live entities holds what the platforms
    registered; and there is a stream task exactly when
    [enable_realtime_updates] is true in the options: then the task is
    pending and stored in the entry's slot, otherwise the slot holds
    [None]. Registering the stop listener is the last thing it did. *)
Theorem completed_setup_state (w w' : world) (b : bool) :
  setup' w = (Ret b, w') ->
  b = true
  /\ config_complete config consts = true
  /\ timedelta_error interval = None
  /\ timedelta_error throttle = None
  /\ is_Some (data w')
  /\ platform_setup = Forwarded (live_entities w')
  /\ task w' = (if realtime then Some (Pending false) else None)
  /\ realtime_loop w' = Some (Some (if realtime then OTask else ONone))
  /\ (EvCreateTask ∈ events_of setup' w <-> realtime = true)
  /\ last (trace w') = Some EvListenStop.
Proof.
  intros Hrun.
  destruct (async_setup_entry_returns _ _ _ Hrun)
    as (Hb & Hc & Hi & Hth & Hd & Hp & Ht & Hs & _ & es1 & Hes1 & Htr).
  assert (Hev : events_of setup' w = drop (length (trace w)) (trace w'))
    by (unfold events_of; by rewrite Hrun).
  rewrite Hev, Htr, drop_app_length.
  split_and!; try done.
  - assert (H1 : EvCreateTask ∉ es1).
    { intros Hin. rewrite Forall_forall in Hes1.
      destruct (Hes1 _ Hin); discriminate. }
    destruct (no_unique_id w); [destruct serial_device|]; destruct realtime;
      repeat (rewrite ?elem_of_cons, ?elem_of_app, ?elem_of_nil);
      intuition (discriminate || eauto).
  - rewrite !app_assoc. rewrite app_comm_cons, !app_assoc. apply last_snoc.
Qed.

(** X7: after a setup that returns, the entry's unique id is the one it
    had, unless it had none and the serial number could be fetched: then
    it is that serial number. The reader is asked for the serial number
    only for an entry without unique id. *)
Theorem setup_unique_id (w w' : world) (b : bool) :
  setup' w = (Ret b, w') ->
  unique_id w'
  = (if no_unique_id w then
       match serial_device with
       | Serial s => Some s
       | _ => unique_id w
       end
     else unique_id w)
  /\ (EvGetSerial ∈ events_of setup' w <-> no_unique_id w = true).
Proof.
  intros Hrun.
  destruct (async_setup_entry_returns _ _ _ Hrun)
    as (_ & _ & _ & _ & _ & _ & _ & _ & Hu & es1 & Hes1 & Htr).
  assert (Hev : events_of setup' w = drop (length (trace w)) (trace w'))
    by (unfold events_of; by rewrite Hrun).
  rewrite Hev, Htr, drop_app_length. split; [exact Hu|].
  assert (H1 : EvGetSerial ∉ es1).
  { intros Hin. rewrite Forall_forall in Hes1.
    destruct (Hes1 _ Hin); discriminate. }
  destruct (no_unique_id w); [destruct serial_device|]; destruct realtime;
    repeat (rewrite ?elem_of_cons, ?elem_of_app, ?elem_of_nil);
    intuition (discriminate || eauto).
Qed.

(** X8: setup and unload compose. After a setup that returned, unload
    completes and answers what the platforms answered; with realtime
    updates on it cancels the task and awaits it, so the task ends
    cancelled, and with realtime updates off it cancels nothing. The
    entry's dict is removed exactly when the platforms unloaded. *)
Theorem unload_after_setup (w w' : world) (b ok : bool) :
  setup' w = (Ret b, w') ->
  result_of (async_unload_entry ok) w' = Ret ok
  /\ events_of (async_unload_entry ok) w'
     = (if realtime then [EvCancel; EvAwaitTask] else [])
       ++ [EvUnloadPlatforms]
  /\ task (async_unload_entry ok w').2
     = (if realtime then Some Cancelled else None)
  /\ realtime_loop (async_unload_entry ok w').2
     = (if ok then None
        else Some (Some (if realtime then OFalse else ONone))).
Proof.
  intros Hrun.
  destruct (async_setup_entry_returns _ _ _ Hrun)
    as (_ & _ & _ & _ & _ & _ & Ht & Hs & _).
  clear Hrun. destruct w' as [gi c av d le u rl t tr].
  cbn in Ht, Hs. subst rl t.
  destruct realtime, ok; split_and!; try reflexivity;
    apply events_of_app; cbv -[app]; by rewrite <- ?app_assoc.
Qed.

(** X9: after a setup that returned, an admitted frame is published
    without an exception, whichever entities have registered in the
    meantime: [coordinator.data] is a dict by then. *)
Theorem publish_after_setup (w w' : world) (b : bool)
    (live : gmap string entity) (policy : value -> value)
    (streamdata : StreamData) :
  setup' w = (Ret b, w') ->
  result_of (update_production_meters policy true streamdata)
    (set_live_entities live w') = Ret tt.
Proof.
  intros Hrun.
  destruct (async_setup_entry_returns _ _ _ Hrun)
    as (_ & _ & _ & _ & [d Hd] & _).
  destruct (for_each_publish_item (new_data_of policy streamdata)
              (new_data_of_NoDup policy streamdata)
              (set_live_entities live w') d Hd) as (d' & Hfor & _).
  unfold result_of, update_production_meters. by rewrite Hfor.
Qed.

End Setup.


(** Witness of X5: the device rejects every request. *)
Lemma failed_setup_starts_nothing_witness :
  result_of (async_setup_entry Samples.device_denied (Serial "122019000001")
               Samples.realtime_options (VNum 30)
       Samples.config1 Samples.consts1 Samples.platforms1) Samples.world0
  = Raise ConfigEntryAuthFailed
  /\ task (async_setup_entry Samples.device_denied (Serial "122019000001")
             Samples.realtime_options (VNum 30)
       Samples.config1 Samples.consts1 Samples.platforms1 Samples.world0).2 = None.
Proof.
  assert (H : result_of (async_setup_entry Samples.device_denied
                           (Serial "122019000001") Samples.realtime_options
                           (VNum 30)
       Samples.config1 Samples.consts1 Samples.platforms1) Samples.world0
              = Raise ConfigEntryAuthFailed) by (vm_compute; reflexivity).
  split; [exact H|].
  exact (proj1 (failed_setup_starts_nothing Samples.device_denied
                  (Serial "122019000001") Samples.realtime_options (VNum 30)
       Samples.config1 Samples.consts1 Samples.platforms1
                  Samples.world0 ConfigEntryAuthFailed H)).
Defined.

(** A setup that returns, for the witnesses below: realtime updates on,
    against a device that refuses installer-level requests. *)
Lemma sample_setup_returns :
  async_setup_entry Samples.device_installer_denied Samples.serial_broken
    Samples.realtime_options (VNum 30)
       Samples.config1 Samples.consts1 Samples.platforms1 Samples.world_live
  = (Ret true,
     (async_setup_entry Samples.device_installer_denied Samples.serial_broken
        Samples.realtime_options (VNum 30)
       Samples.config1 Samples.consts1 Samples.platforms1 Samples.world_live).2).
Proof.
  assert (H : (async_setup_entry Samples.device_installer_denied
                 Samples.serial_broken Samples.realtime_options (VNum 30)
       Samples.config1 Samples.consts1 Samples.platforms1
                 Samples.world_live).1 = Ret true)
    by (vm_compute; reflexivity).
  rewrite <- H. apply surjective_pairing.
Defined.

(** Witness of X6. *)
Lemma completed_setup_state_witness :
  task (async_setup_entry Samples.device_installer_denied
          Samples.serial_broken Samples.realtime_options (VNum 30)
       Samples.config1 Samples.consts1 Samples.platforms1
          Samples.world_live).2
  = Some (Pending false).
Proof.
  destruct (completed_setup_state Samples.device_installer_denied
              Samples.serial_broken Samples.realtime_options (VNum 30)
       Samples.config1 Samples.consts1 Samples.platforms1
              Samples.world_live _ true sample_setup_returns)
    as (_ & _ & _ & _ & _ & _ & Ht & _).
  rewrite Ht. vm_compute. reflexivity.
Defined.

(** Witness of X7: the entry has a unique id, so the broken serial-number
    request is never made. *)
Lemma setup_unique_id_witness :
  unique_id (async_setup_entry Samples.device_installer_denied
               Samples.serial_broken Samples.realtime_options (VNum 30)
       Samples.config1 Samples.consts1 Samples.platforms1
               Samples.world_live).2
  = Some "122019000001"%string.
Proof.
  destruct (setup_unique_id Samples.device_installer_denied
              Samples.serial_broken Samples.realtime_options (VNum 30)
       Samples.config1 Samples.consts1 Samples.platforms1
              Samples.world_live _ true sample_setup_returns) as [Hu _].
  rewrite Hu. reflexivity.
Defined.

(** Witness of X8. *)
Lemma unload_after_setup_witness :
  task (async_unload_entry true
          (async_setup_entry Samples.device_installer_denied
             Samples.serial_broken Samples.realtime_options (VNum 30)
       Samples.config1 Samples.consts1 Samples.platforms1
             Samples.world_live).2).2
  = Some Cancelled.
Proof.
  destruct (unload_after_setup Samples.device_installer_denied
              Samples.serial_broken Samples.realtime_options (VNum 30)
       Samples.config1 Samples.consts1 Samples.platforms1
              Samples.world_live _ true true sample_setup_returns)
    as (_ & _ & Ht & _).
  rewrite Ht. vm_compute. reflexivity.
Defined.

(** Witness of X9. *)
Lemma publish_after_setup_witness :
  result_of (update_production_meters Samples.clamp_negative true
               Samples.frame1)
    (set_live_entities {[ "production_l1"%string := 3%nat ]}
       (async_setup_entry Samples.device_installer_denied
          Samples.serial_broken Samples.realtime_options (VNum 30)
       Samples.config1 Samples.consts1 Samples.platforms1
          Samples.world_live).2)
  = Ret tt.
Proof.
  exact (publish_after_setup Samples.device_installer_denied
           Samples.serial_broken Samples.realtime_options (VNum 30)
       Samples.config1 Samples.consts1 Samples.platforms1
           Samples.world_live _ true {[ "production_l1"%string := 3%nat ]}
           Samples.clamp_negative Samples.frame1 sample_setup_returns).
Defined.

(** ** Further properties of the stop paths *)

(** X10: when the stream task has died of an exception other than a
    cancellation, unload re-raises that exception from [await task]:
    [suppress] lets it through, the platforms are not unloaded, and the
    entry keeps its dict with the dead task in the slot. *)
Theorem unload_reraises_task_failure (w : world) (e : exn) (ok : bool) :
  task w = Some (Failed e) ->
  e <> CancelledError ->
  realtime_loop w = Some (Some OTask) ->
  result_of (async_unload_entry ok) w = Raise e
  /\ events_of (async_unload_entry ok) w = [EvCancel; EvAwaitTask]
  /\ realtime_loop (async_unload_entry ok w).2 = Some (Some OTask)
  /\ task (async_unload_entry ok w).2 = Some (Failed e).
Proof.
  intros Ht He Hs. destruct w as [gi c av d le u rl t tr].
  cbn in Ht, Hs. subst rl t.
  destruct e; try congruence; split_and!; try reflexivity;
    apply events_of_app; cbv -[app]; by rewrite <- ?app_assoc.
Qed.

(** X11: a second unload. After an unload that removed the entry's dict
    (the platforms unloaded), unloading again fails with [KeyError]
    before doing anything; after one that kept it, unloading again only
    asks the platforms, without cancelling or awaiting anything. *)
Theorem unload_twice (w : world) (ok ok' : bool) :
  result_of (async_unload_entry ok) w = Ret ok ->
  result_of (async_unload_entry ok') (async_unload_entry ok w).2
  = (if ok then Raise (OtherError "KeyError") else Ret ok')
  /\ events_of (async_unload_entry ok') (async_unload_entry ok w).2
     = (if ok then [] else [EvUnloadPlatforms]).
Proof.
  destruct w as [gi c av d le u rl t tr]. unfold result_of.
  destruct rl as [[[]|]|]; try discriminate.
  3: { destruct t as [[[]| | |e]|]; try discriminate;
       try (destruct e; try discriminate);
       intros _; destruct ok, ok'; split; try reflexivity;
       apply events_of_app; cbv -[app]; by rewrite <- ?app_assoc, ?app_nil_r. }
  all: intros _; destruct t as [[[]| | |e]|]; destruct ok, ok'; split;
    try reflexivity;
    apply events_of_app; cbv -[app]; by rewrite <- ?app_assoc, ?app_nil_r.
Qed.

(** X12: with a stream task, the host-stop handler can run any number of
    times: a second run requests the cancellation again and changes
    nothing else. *)
Theorem stop_handler_twice (w : world) (st : task_state)
    (slot : option pyobj) :
  task w = Some st ->
  realtime_loop w = Some slot ->
  result_of _async_stop w = Ret tt
  /\ _async_stop (_async_stop w).2 = (Ret tt, log EvCancel (_async_stop w).2)
  /\ realtime_loop (_async_stop w).2 = Some (Some OFalse)
  /\ task (_async_stop w).2
     = Some (match st with Pending _ => Pending true | _ => st end).
Proof.
  intros Ht Hs. destruct w as [gi c av d le u rl t tr].
  cbn in Ht, Hs. subst rl t.
  destruct st as [[]| | |e]; split_and!; reflexivity.
Qed.

(** Witness of X10. *)
Lemma unload_reraises_task_failure_witness :
  task Samples.world_task_failed = Some (Failed (HTTPError "read timeout"))
  /\ result_of (async_unload_entry true) Samples.world_task_failed
     = Raise (HTTPError "read timeout").
Proof.
  split; [reflexivity|].
  refine (proj1 (unload_reraises_task_failure Samples.world_task_failed
                   (HTTPError "read timeout") true eq_refl _ eq_refl)).
  discriminate.
Defined.

(** Witness of X11: the task had returned; the platforms unload. *)
Lemma unload_twice_witness :
  result_of (async_unload_entry true) Samples.world_task_finished = Ret true
  /\ result_of (async_unload_entry true)
       (async_unload_entry true Samples.world_task_finished).2
     = Raise (OtherError "KeyError").
Proof.
  split; [reflexivity|].
  exact (proj1 (unload_twice Samples.world_task_finished true true eq_refl)).
Defined.

(** Witness of X12. *)
Lemma stop_handler_twice_witness :
  task Samples.world_streaming = Some (Pending false)
  /\ task (_async_stop (_async_stop Samples.world_streaming).2).2
     = Some (Pending true).
Proof.
  split; [reflexivity|].
  destruct (stop_handler_twice Samples.world_streaming (Pending false)
              (Some OTask) eq_refl eq_refl) as (_ & H2 & _ & Ht).
  rewrite H2. exact Ht.
Defined.

(** ** Further properties of the reconnect loop *)

Section ReconnectLoop.

Variable options : gmap string value.

Abbreviation loop' := (read_realtime_updates options).

(** X13: the loop also ends without the final [False]: when, after any
    number of reconnects, the loop condition no longer holds (the host is
    stopping, or it runs with realtime updates off), the loop returns at
    the loop head without calling [stream_reader] again. *)
Theorem loop_returns_when_condition_fails (pre : list round) (r : round)
    (env : list round) (w : world) :
  Forall (fun r => transient options r = true) pre ->
  loop_condition options (hass r) = false ->
  loop' (pre ++ r :: env) w
  = (Ret tt, logs (flat_map (fun _ => reconnect_events) pre) w).
Proof.
  intros Hpre Hc. rewrite (read_realtime_updates_transients _ _ _ _ Hpre).
  cbn [read_realtime_updates]. by rewrite Hc.
Qed.

(** X14: nothing in the loop catches an exception of [stream_reader]:
    after any number of reconnects, a stream read that raises ends the
    loop with that exception, without warning, delay or reconnect. The
    same holds for the [CancelledError] of a cancelled task. *)
Theorem loop_ends_with_stream_exception (pre : list round) (r : round)
    (env : list round) (w : world) (e : exn) :
  Forall (fun r => transient options r = true) pre ->
  loop_condition options (hass r) = true ->
  stream_end r = Thrown e ->
  loop' (pre ++ r :: env) w
  = (Raise e,
     logs (flat_map (fun _ => reconnect_events) pre ++ [EvStreamReader]) w).
Proof.
  intros Hpre Hc Hs. rewrite (read_realtime_updates_transients _ _ _ _ Hpre).
  cbn [read_realtime_updates]. rewrite Hc, Hs.
  unfold mbind, M_bind, bind, emit, await_point, raise.
  f_equal. unfold logs, log. cbn. by rewrite app_assoc.
Qed.

(** X15: an exception that surfaces in the reconnect delay (the
    cancellation of the task) ends the loop there: the stream is not
    opened again. *)
Theorem loop_ends_with_exception_in_delay (pre : list round) (r : round)
    (env : list round) (w : world) (result : value) (e : exn) :
  Forall (fun r => transient options r = true) pre ->
  loop_condition options (hass r) = true ->
  stream_end r = Resumed result ->
  py_eq result (VBool false) = false ->
  sleep_end r = Thrown e ->
  loop' (pre ++ r :: env) w
  = (Raise e,
     logs (flat_map (fun _ => reconnect_events) pre ++ reconnect_events) w).
Proof.
  intros Hpre Hc Hs Hr Hz.
  rewrite (read_realtime_updates_transients _ _ _ _ Hpre).
  cbn [read_realtime_updates]. rewrite Hc, Hs.
  unfold mbind, M_bind, bind, emit, await_point, raise, ret.
  rewrite Hr, Hz. f_equal. unfold logs, log, reconnect_events. cbn.
  by rewrite <- !app_assoc.
Qed.

End ReconnectLoop.

(** Witness of X13: the host starts stopping during the second delay. *)
Lemma loop_returns_when_condition_fails_witness :
  events_of (read_realtime_updates Samples.realtime_options
               [Samples.round_drop; Samples.round_drop;
                Samples.round_stopping; Samples.round_drop])
    Samples.world_streaming
  = [EvStreamReader; EvWarning "Re-connecting /stream/meter"; EvSleep 30;
     EvStreamReader; EvWarning "Re-connecting /stream/meter"; EvSleep 30].
Proof.
  assert (Hpre : Forall (fun r => transient Samples.realtime_options r = true)
                   [Samples.round_drop; Samples.round_drop])
    by (repeat constructor).
  pose proof (loop_returns_when_condition_fails Samples.realtime_options
                [Samples.round_drop; Samples.round_drop]
                Samples.round_stopping [Samples.round_drop]
                Samples.world_streaming Hpre eq_refl) as H.
  cbn [app] in H. apply events_of_app. rewrite H. reflexivity.
Defined.

(** Witness of X14: the read fails in the second connection. *)
Lemma loop_ends_with_stream_exception_witness :
  result_of (read_realtime_updates Samples.realtime_options
               [Samples.round_drop; Samples.round_broken; Samples.round_drop])
    Samples.world_streaming
  = Raise (HTTPError "read timeout").
Proof.
  assert (Hpre : Forall (fun r => transient Samples.realtime_options r = true)
                   [Samples.round_drop])
    by (repeat constructor).
  pose proof (loop_ends_with_stream_exception Samples.realtime_options
                [Samples.round_drop] Samples.round_broken [Samples.round_drop]
                Samples.world_streaming (HTTPError "read timeout")
                Hpre eq_refl eq_refl) as H.
  cbn [app] in H. unfold result_of. rewrite H. reflexivity.
Defined.

(** Witness of X15: the task is cancelled in the first delay. *)
Lemma loop_ends_with_exception_in_delay_witness :
  result_of (read_realtime_updates Samples.realtime_options
               [{| hass := Samples.host_running; stream_end := Resumed VNone;
                   sleep_end := Thrown CancelledError |}; Samples.round_drop])
    Samples.world_streaming
  = Raise CancelledError.
Proof.
  pose proof (loop_ends_with_exception_in_delay Samples.realtime_options []
                {| hass := Samples.host_running; stream_end := Resumed VNone;
                   sleep_end := Thrown CancelledError |}
                [Samples.round_drop] Samples.world_streaming VNone
                CancelledError (Forall_nil_2 _) eq_refl eq_refl eq_refl
                eq_refl) as H.
  cbn [app] in H. unfold result_of. rewrite H. reflexivity.
Defined.

(** ** Further properties of the publisher *)

Lemma flat_map_nil {A B} (f : A -> list B) (l : list A) :
  (forall x, x ∈ l -> f x = []) -> flat_map f l = [].
Proof.
  induction l as [|x l IH]; intros H; [reflexivity|].
  cbn [flat_map]. rewrite (H x) by left. apply IH. intros y Hy. apply H.
  by right.
Qed.

(** [==] is reflexive on everything but the not-a-number float. *)
Lemma py_eq_refl (v : value) : v <> VNaN -> py_eq v v = true.
Proof.
  destruct v as [|b|z|s|]; cbn; try done.
  - intros _. by apply bool_decide_eq_true.
  - intros _. by apply Z.eqb_eq.
  - intros _. by apply bool_decide_eq_true.
Qed.

(** Items whose keys have no live entity are passed over, whatever
    [coordinator.data] is. *)
Lemma for_each_publish_item_no_entity (items : list (string * value))
    (w : world) :
  (forall item, item ∈ items -> live_entities w !! item.1 = None) ->
  for_each items publish_item w = (Ret tt, w).
Proof.
  induction items as [|[key v] items IH]; intros Hnone; [reflexivity|].
  cbn [for_each]. unfold mbind, M_bind, bind.
  assert (Hhead : publish_item (key, v) w = (Ret tt, w)).
  { assert (Hkey : live_entities w !! key = None)
      by (apply (Hnone (key, v)); by left).
    unfold publish_item, mbind, M_bind, bind, gets. cbn. by rewrite Hkey. }
  rewrite Hhead. apply IH. intros item Hin. apply Hnone. by right.
Qed.

(** Without a snapshot, the first item with a live entity is fatal. *)
Lemma for_each_publish_item_no_data (items : list (string * value))
    (w : world) (item : string * value) :
  data w = None ->
  item ∈ items ->
  is_Some (live_entities w !! item.1) ->
  for_each items publish_item w
  = (Raise (AttributeError "'NoneType' object has no attribute 'get'"), w).
Proof.
  intros Hd. induction items as [|[key v] items IH]; intros Hin Hlive.
  - by apply elem_of_nil in Hin.
  - cbn [for_each]. unfold mbind, M_bind, bind.
    destruct (live_entities w !! key) as [e|] eqn:Hkey.
    + unfold publish_item, mbind, M_bind, bind, gets. cbn.
      by rewrite Hkey, Hd.
    + assert (Hhead : publish_item (key, v) w = (Ret tt, w)).
      { unfold publish_item, mbind, M_bind, bind, gets. cbn. by rewrite Hkey. }
      rewrite Hhead. apply IH; [|done].
      apply elem_of_cons in Hin as [->|Hin]; [|done].
      cbn in Hlive. rewrite Hkey in Hlive. by destruct Hlive.
Qed.

Section PublisherMore.

Variable process_production_value : value -> value.

Abbreviation publish' := (update_production_meters process_production_value).
Abbreviation derived := (new_data_of process_production_value).

(** X16: publishing a frame without not-a-number readings is idempotent.
    When the frame that was just published is admitted again, nothing is
    written and no entity is notified: every derived value now equals
    the stored one. (A not-a-number reading differs from itself under
    [!=], so it is written again each time.) *)
Theorem publish_same_frame_again (streamdata : StreamData) (w : world)
    (d : gmap string value) :
  data w = Some d ->
  Forall (fun item => item.2 <> VNaN) (derived streamdata) ->
  publish' true streamdata (publish' true streamdata w).2
  = (Ret tt, (publish' true streamdata w).2).
Proof.
  intros Hd Hfinite. unfold update_production_meters.
  pose proof (new_data_of_NoDup process_production_value streamdata) as Hnd.
  destruct (for_each_publish_item _ Hnd w d Hd) as (d1 & Hrun1 & Hout1 & Hin1).
  rewrite Hrun1. cbn [snd].
  match goal with |- for_each _ _ ?w1 = _ => set (w1' := w1) end.
  destruct (for_each_publish_item _ Hnd w1' d1 eq_refl)
    as (d2 & Hrun2 & Hout2 & Hin2).
  rewrite Hrun2. subst w1'. cbn [get_inverters calls all_values live_entities
    unique_id realtime_loop task trace] in *.
  assert (Hsame : forall key v e,
             (key, v) ∈ derived streamdata ->
             live_entities w !! key = Some e ->
             py_ne (dict_get d1 key) v = false).
  { intros key v e Hkv Hl. specialize (Hin1 key v Hkv).
    rewrite Hl in Hin1. rewrite bool_decide_eq_true_2 in Hin1 by eauto.
    cbn [andb] in Hin1. unfold py_ne, dict_get in *.
    destruct (negb (py_eq (default VNone (d !! key)) v)) eqn:Hne.
    - rewrite Hin1. cbn. rewrite py_eq_refl; [done|].
      rewrite Forall_forall in Hfinite. exact (Hfinite (key, v) Hkv).
    - by rewrite Hin1. }
  assert (Hnil : flat_map (item_events (live_entities w) d1)
                   (derived streamdata) = []).
  { apply flat_map_nil. intros [key v] Hkv.
    unfold item_events. cbn [fst snd].
    destruct (live_entities w !! key) as [e|] eqn:Hl; [|reflexivity].
    by rewrite (Hsame key v e Hkv Hl). }
  assert (Heq : d2 = d1).
  { apply map_eq. intros key.
    destruct (decide (key ∈ (derived streamdata).*1)) as [Hkey|Hkey].
    - apply list_elem_of_fmap in Hkey as ([k v] & -> & Hkv). cbn [fst].
      rewrite (Hin2 k v Hkv).
      destruct (live_entities w !! k) as [e|] eqn:Hl.
      + by rewrite (Hsame k v e Hkv Hl), andb_false_r.
      + rewrite bool_decide_eq_false_2; [done|]. by intros [? ?].
    - by apply Hout2. }
  rewrite Hnil, Heq, app_nil_r. reflexivity.
Qed.

(** X17: when none of the derived keys has a live entity, an admitted
    frame changes nothing at all, even when [coordinator.data] is still
    [None]: the snapshot is only looked at for keys with an entity. *)
Theorem publish_without_entities (streamdata : StreamData) (w : world) :
  (forall key, key ∈ (derived streamdata).*1 ->
     live_entities w !! key = None) ->
  publish' true streamdata w = (Ret tt, w).
Proof.
  intros Hnone. unfold update_production_meters.
  apply for_each_publish_item_no_entity. intros item Hin.
  apply Hnone. apply list_elem_of_fmap. by exists item.
Qed.

(** X18: the publisher needs the snapshot of a completed poll. With
    [coordinator.data] still [None] and an entity registered for one of
    the derived keys, an admitted frame fails with [AttributeError] at
    [coordinator.data.get] and neither writes nor notifies. *)
Theorem publish_without_snapshot (streamdata : StreamData) (w : world)
    (key : string) :
  data w = None ->
  key ∈ (derived streamdata).*1 ->
  is_Some (live_entities w !! key) ->
  publish' true streamdata w
  = (Raise (AttributeError "'NoneType' object has no attribute 'get'"), w).
Proof.
  intros Hd Hkey Hlive. unfold update_production_meters.
  apply list_elem_of_fmap in Hkey as (item & -> & Hin).
  by apply (for_each_publish_item_no_data _ _ item).
Qed.

End PublisherMore.

(** Witness of X16. *)
Lemma publish_same_frame_again_witness :
  data Samples.world_live = Some Samples.snapshot1
  /\ events_of (update_production_meters Samples.clamp_negative true
                  Samples.frame1)
       (update_production_meters Samples.clamp_negative true Samples.frame1
          Samples.world_live).2
     = [].
Proof.
  split; [reflexivity|]. unfold events_of.
  rewrite (publish_same_frame_again Samples.clamp_negative Samples.frame1
             Samples.world_live Samples.snapshot1 eq_refl).
  - cbn [snd]. apply drop_all.
  - rewrite new_data_of_eq, !phase_entries_eq.
    repeat (apply List.Forall_cons; [discriminate|]). apply List.Forall_nil.
Defined.

(** Witness of X17: nothing has registered yet, nothing was polled. *)
Lemma publish_without_entities_witness :
  data Samples.world0 = None
  /\ update_production_meters Samples.clamp_negative true Samples.frame1
       Samples.world0
     = (Ret tt, Samples.world0).
Proof.
  split; [reflexivity|].
  apply publish_without_entities. intros key _. apply lookup_empty.
Defined.

(** Witness of X18: an entity listens to [production_l2] before any poll
    has completed. *)
Lemma publish_without_snapshot_witness :
  result_of (update_production_meters Samples.clamp_negative true
               Samples.frame1)
    (set_live_entities {[ "production_l2"%string := 7%nat ]} Samples.world0)
  = Raise (AttributeError "'NoneType' object has no attribute 'get'").
Proof.
  unfold result_of.
  rewrite (publish_without_snapshot Samples.clamp_negative Samples.frame1
             (set_live_entities {[ "production_l2"%string := 7%nat ]}
                Samples.world0) "production_l2"%string).
  - reflexivity.
  - reflexivity.
  - rewrite new_data_of_keys. apply (bool_decide_unpack _). vm_compute. exact I.
  - cbn. rewrite lookup_singleton_eq. eauto.
Defined.

(** ** More concrete runs *)

(** Intervals that are no numbers: setup stops in [timedelta], for the
    update interval right after the token store was loaded, for the
    throttle interval after the platforms were set up. *)
Example setup_bad_intervals :
  (async_setup_entry Samples.device_ok (Serial "122019000001")
     Samples.bad_interval_options (VNum 30) Samples.config1 Samples.consts1
     Samples.platforms1 Samples.world0).1
  = Raise (OtherError "TypeError")
  /\ events_of (async_setup_entry Samples.device_ok (Serial "122019000001")
                  Samples.bad_interval_options (VNum 30) Samples.config1
                  Samples.consts1 Samples.platforms1) Samples.world0
     = [EvSyncStore true]
  /\ (async_setup_entry Samples.device_ok (Serial "122019000001")
        Samples.bad_throttle_options (VNum 30) Samples.config1
        Samples.consts1 Samples.platforms1 Samples.world0).1
     = Raise (OtherError "TypeError")
  /\ events_of (async_setup_entry Samples.device_ok (Serial "122019000001")
                  Samples.bad_throttle_options (VNum 30) Samples.config1
                  Samples.consts1 Samples.platforms1) Samples.world0
     = [EvSyncStore true; EvGetData true; EvSyncStore false; EvGetSerial;
        EvUpdateEntry "122019000001"; EvForwardSetups].
Proof. split_and!; vm_compute; reflexivity. Qed.

(** An incomplete [entry.data]: setup stops in the first lookup. *)
Example setup_incomplete_config :
  async_setup_entry Samples.device_ok (Serial "122019000001")
    Samples.no_options (VNum 30) ∅ Samples.consts1 Samples.platforms1
    Samples.world0
  = (Raise (OtherError "KeyError"), Samples.world0).
Proof. reflexivity. Qed.

(** A not-a-number reading is published every time: the second of two
    identical frames writes and notifies again for that key. *)
Example publish_nan_frame_again :
  events_of (update_production_meters Samples.clamp_negative true
               Samples.frame_nan)
    (update_production_meters Samples.clamp_negative true Samples.frame_nan
       (set_live_entities {[ "power_factorl1"%string := 5%nat ]}
          Samples.world_live)).2
  = [EvSetData "power_factorl1" VNaN; EvWriteHaState "power_factorl1" 5%nat].
Proof. vm_compute. reflexivity. Qed.
